(** * LabTimer: the multi-timer engine of src/components/LabTimer.tsx

    A shallow embedding of the timer state, the time calculation, the two
    drivers (the requestAnimationFrame loop and the visibility handler) and
    the per-id mutation handlers of the [LabTimer] component, followed by the
    properties of the engine.

    Conventions of the embedding.
    - A JavaScript [number] holding a millisecond count or a [Date.now()]
      reading is an integer of [Z]; fractional minutes typed into the target
      input are outside the model.
    - [number | null] is [option Z]; [null] is [None].
    - Every handler reads the clock through [Date.now()]; the reading is the
      explicit argument [now].  [toggleTimer] reads the clock itself and,
      when pausing, once more inside [calculateCurrentTime]; a driver pass
      reads it once per running timer.  The readings of one invocation are
      taken to be equal.
    - [setTimers (prev => ...)] is a function from the previous array to the
      next one; the calls made inside an updater ([playAlarm],
      [showNotification], [toast]) are returned as a list of [effect]s in
      the order in which they are issued. *)

From Stdlib Require Import ZArith String Ascii List Bool Lia.
From Stdlib Require Import DecimalString DecimalZ DecimalPos.
Import ListNotations.
Local Open Scope Z_scope.

(** ** Data model *)

Inductive Mode := stopwatch | countdown.

Record Timer := mkTimer {
  id : string;
  name : string;
  time : Z;                  (* current display time in milliseconds *)
  isRunning : bool;
  mode : Mode;
  targetDuration : Z;        (* milliseconds, for countdown mode *)
  hasCompleted : bool;       (* track if countdown reached zero *)
  startedAt : option Z;      (* timestamp when timer started *)
  pausedAt : option Z;       (* timestamp when timer was paused *)
  endTime : option Z;        (* target end time for countdown *)
  accumulatedTime : Z        (* time accumulated before current session *)
}.

Definition Mode_eqb (a b : Mode) : bool :=
  match a, b with
  | stopwatch, stopwatch | countdown, countdown => true
  | _, _ => false
  end.

(** The single timer the component starts with. *)
Definition initialTimer : Timer :=
  {| id := "1"; name := "Main Timer"; time := 0; isRunning := false;
     mode := stopwatch; targetDuration := 0; hasCompleted := false;
     startedAt := None; pausedAt := None; endTime := None;
     accumulatedTime := 0 |}.

(** ** JavaScript coercions of [number | null] *)

(** [if (v)]: [null] and [0] are falsy, every other number is truthy. *)
Definition truthy (v : option Z) : bool :=
  match v with
  | Some n => negb (n =? 0)
  | None => false
  end.

(** [v] in arithmetic position: [null] converts to [0]. *)
Definition number (v : option Z) : Z :=
  match v with
  | Some n => n
  | None => 0
  end.

(** ** calculateCurrentTime *)

Definition calculateCurrentTime (timer : Timer) (now : Z) : Z :=
  if negb (isRunning timer) then time timer
  else
    match mode timer with
    | stopwatch =>
        if truthy (startedAt timer)
        then accumulatedTime timer + (now - number (startedAt timer))
        else accumulatedTime timer
    | countdown =>
        if truthy (endTime timer)
        then let remaining := number (endTime timer) - now in
             Z.max 0 remaining
        else time timer
    end.

(** ** Effects issued from inside the state updaters *)

Inductive effect :=
| playAlarm (times : Z)
| showNotification (timerName : string)
| toast_success (timerName : string)   (* the "<name> completed!" toast *)
| toast_error (message : string).

(** The three calls made, in this order, when a countdown is seen at zero. *)
Definition completionEffects (timer : Timer) : list effect :=
  [playAlarm 5; showNotification (name timer); toast_success (name timer)].

(** The guard shared by both drivers:
    [timer.mode === "countdown" && currentTime === 0 && !timer.hasCompleted
     && timer.endTime]. *)
Definition countdownJustCompleted (timer : Timer) (currentTime : Z) : bool :=
  Mode_eqb (mode timer) countdown && (currentTime =? 0)
  && negb (hasCompleted timer) && truthy (endTime timer).

(** [{ ...timer, time: 0, isRunning: false, hasCompleted: true,
       endTime: null, startedAt: null }] *)
Definition completedTimer (timer : Timer) : Timer :=
  {| id := id timer; name := name timer;
     time := 0;
     isRunning := false;
     mode := mode timer; targetDuration := targetDuration timer;
     hasCompleted := true;
     startedAt := None;
     pausedAt := pausedAt timer;
     endTime := None;
     accumulatedTime := accumulatedTime timer |}.

(** [{ ...timer, time: currentTime }] *)
Definition withTime (timer : Timer) (currentTime : Z) : Timer :=
  {| id := id timer; name := name timer;
     time := currentTime;
     isRunning := isRunning timer;
     mode := mode timer; targetDuration := targetDuration timer;
     hasCompleted := hasCompleted timer;
     startedAt := startedAt timer;
     pausedAt := pausedAt timer;
     endTime := endTime timer;
     accumulatedTime := accumulatedTime timer |}.

(** ** The main update loop (requestAnimationFrame) *)

(** The callback of [prev.map] in [updateTimers]; the boolean tells whether
    this timer set [hasChanges]. *)
Definition updateTimers_timer (now : Z) (timer : Timer)
  : Timer * bool * list effect :=
  if negb (isRunning timer) then (timer, false, [])
  else
    let currentTime := calculateCurrentTime timer now in
    if countdownJustCompleted timer currentTime
    then (completedTimer timer, true, completionEffects timer)
    else if Z.abs (currentTime - time timer) >=? 10
    then (withTime timer currentTime, true, [])
    else (timer, false, []).

Definition updateTimers (now : Z) (prev : list Timer)
  : list Timer * list effect :=
  let results := map (updateTimers_timer now) prev in
  let updated := map (fun r => fst (fst r)) results in
  let hasChanges := existsb (fun r => snd (fst r)) results in
  (if hasChanges then updated else prev, concat (map snd results)).

(** ** The visibility handler *)

Inductive VisibilityState := visible | hidden.

(** The callback of [prev.map] in [handleVisibilityChange]. *)
Definition handleVisibilityChange_timer (now : Z) (timer : Timer)
  : Timer * list effect :=
  if negb (isRunning timer) then (timer, [])
  else
    let currentTime := calculateCurrentTime timer now in
    if countdownJustCompleted timer currentTime
    then (completedTimer timer, completionEffects timer)
    else (withTime timer currentTime, []).

(** [visibilityState] is [document.visibilityState] at the event,
    [lastVisibilityState] the content of the ref; the third component of the
    result is the new content of the ref. *)
Definition handleVisibilityChange (now : Z)
    (visibilityState lastVisibilityState : VisibilityState)
    (prev : list Timer) : list Timer * list effect * VisibilityState :=
  match visibilityState, lastVisibilityState with
  | visible, hidden =>
      let results := map (handleVisibilityChange_timer now) prev in
      (map fst results, concat (map snd results), visibilityState)
  | _, _ => (prev, [], visibilityState)
  end.

(** ** The per-id handlers *)

(** The callback of [prev.map] in [toggleTimer], after the id test. *)
Definition toggleTimer_timer (now : Z) (timer : Timer)
  : Timer * list effect :=
  if isRunning timer then
    (* Pausing *)
    let currentTime := calculateCurrentTime timer now in
    ({| id := id timer; name := name timer;
        time := currentTime;
        isRunning := false;
        mode := mode timer; targetDuration := targetDuration timer;
        hasCompleted := hasCompleted timer;
        startedAt := None;
        pausedAt := Some now;
        endTime := endTime timer;
        accumulatedTime :=
          match mode timer with
          | stopwatch => currentTime
          | countdown => 0
          end |}, [])
  else
    (* Starting *)
    if Mode_eqb (mode timer) countdown && (time timer =? 0)
    then (timer, [toast_error "Set a target duration first!"])
    else
      ({| id := id timer; name := name timer;
          time := time timer;
          isRunning := true;
          mode := mode timer; targetDuration := targetDuration timer;
          hasCompleted := false;
          startedAt := Some now;
          pausedAt := None;
          endTime :=
            match mode timer with
            | countdown => Some (now + time timer)
            | stopwatch => None
            end;
          accumulatedTime := accumulatedTime timer |}, []).

Definition toggleTimer (target : string) (now : Z) (prev : list Timer)
  : list Timer * list effect :=
  let results :=
    map (fun timer =>
           if negb (String.eqb (id timer) target) then (timer, [])
           else toggleTimer_timer now timer) prev in
  (map fst results, concat (map snd results)).

Definition resetTimer_timer (timer : Timer) : Timer :=
  {| id := id timer; name := name timer;
     time := match mode timer with
             | countdown => targetDuration timer
             | stopwatch => 0
             end;
     isRunning := false;
     mode := mode timer; targetDuration := targetDuration timer;
     hasCompleted := false;
     startedAt := None;
     pausedAt := None;
     endTime := None;
     accumulatedTime := 0 |}.

Definition resetTimer (target : string) (prev : list Timer) : list Timer :=
  map (fun timer =>
         if String.eqb (id timer) target then resetTimer_timer timer
         else timer) prev.

Definition deleteTimer (target : string) (prev : list Timer) : list Timer :=
  filter (fun timer => negb (String.eqb (id timer) target)) prev.

Definition toggleMode_timer (timer : Timer) : Timer :=
  let newMode := match mode timer with
                 | stopwatch => countdown
                 | countdown => stopwatch
                 end in
  {| id := id timer; name := name timer;
     time := match newMode with
             | countdown => targetDuration timer
             | stopwatch => 0
             end;
     isRunning := false;
     mode := newMode; targetDuration := targetDuration timer;
     hasCompleted := false;
     startedAt := None;
     pausedAt := None;
     endTime := None;
     accumulatedTime := 0 |}.

Definition toggleMode (target : string) (prev : list Timer) : list Timer :=
  map (fun timer =>
         if negb (String.eqb (id timer) target) then timer
         else toggleMode_timer timer) prev.

Definition setTargetDuration_timer (minutes : Z) (timer : Timer) : Timer :=
  let ms := minutes * 60 * 1000 in
  {| id := id timer; name := name timer;
     time := ms;
     isRunning := isRunning timer;
     mode := mode timer;
     targetDuration := ms;
     hasCompleted := false;
     startedAt := None;
     pausedAt := None;
     endTime := None;
     accumulatedTime := 0 |}.

Definition setTargetDuration (target : string) (minutes : Z)
    (prev : list Timer) : list Timer :=
  map (fun timer =>
         if String.eqb (id timer) target
         then setTargetDuration_timer minutes timer
         else timer) prev.

Definition setPreset_timer (ms : Z) (timer : Timer) : Timer :=
  {| id := id timer; name := name timer;
     time := ms;
     isRunning := false;
     mode := mode timer;
     targetDuration := match mode timer with
                       | countdown => ms
                       | stopwatch => targetDuration timer
                       end;
     hasCompleted := false;
     startedAt := None;
     pausedAt := None;
     endTime := None;
     accumulatedTime := 0 |}.

Definition setPreset (target : string) (ms : Z) (prev : list Timer)
  : list Timer :=
  map (fun timer =>
         if String.eqb (id timer) target then setPreset_timer ms timer
         else timer) prev.

(** The ZERO button's inline updater. *)
Definition zeroTimer_timer (t : Timer) : Timer :=
  {| id := id t; name := name t;
     time := 0;
     isRunning := false;
     mode := mode t; targetDuration := targetDuration t;
     hasCompleted := false;
     startedAt := None;
     pausedAt := None;
     endTime := None;
     accumulatedTime := 0 |}.

Definition zeroTimer (target : string) (prev : list Timer) : list Timer :=
  map (fun t => if String.eqb (id t) target then zeroTimer_timer t else t)
      prev.

(** ** One timer under a sequence of handler invocations *)

Inductive action :=
| Tick (now : Z)                    (* a pass of the update loop *)
| Visible (now : Z)                 (* a pass of the visibility handler *)
| Toggle (now : Z)                  (* pause when running, start otherwise *)
| Reset
| Zero
| ToggleMode
| SetTargetDuration (minutes : Z)
| SetPreset (ms : Z).

Definition act (a : action) (timer : Timer) : Timer * list effect :=
  match a with
  | Tick now =>
      let r := updateTimers_timer now timer in (fst (fst r), snd r)
  | Visible now => handleVisibilityChange_timer now timer
  | Toggle now => toggleTimer_timer now timer
  | Reset => (resetTimer_timer timer, [])
  | Zero => (zeroTimer_timer timer, [])
  | ToggleMode => (toggleMode_timer timer, [])
  | SetTargetDuration minutes => (setTargetDuration_timer minutes timer, [])
  | SetPreset ms => (setPreset_timer ms timer, [])
  end.

Fixpoint run (l : list action) (timer : Timer) : Timer * list effect :=
  match l with
  | [] => (timer, [])
  | a :: l' =>
      let r := act a timer in
      let r' := run l' (fst r) in
      (fst r', snd r ++ snd r')
  end.

(** [Toggle] on a timer that is not running is (an attempt to) start. *)
Definition isStart (a : action) (timer : Timer) : bool :=
  match a with
  | Toggle _ => negb (isRunning timer)
  | _ => false
  end.

(** No action of [l] is a start at the state in which it is applied. *)
Fixpoint noStart (l : list action) (timer : Timer) : bool :=
  match l with
  | [] => true
  | a :: l' => negb (isStart a timer) && noStart l' (fst (act a timer))
  end.

Definition isDriver (a : action) : bool :=
  match a with
  | Tick _ | Visible _ => true
  | _ => false
  end.

(** How many completion notifications a list of effects contains. *)
Definition completions (es : list effect) : nat :=
  length (filter (fun e => match e with
                           | showNotification _ => true
                           | _ => false
                           end) es).

(** ** Predicates on a timer *)

Definition present (v : option Z) : bool :=
  match v with
  | Some _ => true
  | None => false
  end.

(** The timestamp invariant in the words of the specification: while
    running exactly one of [startedAt]/[endTime] is present, selected by the
    mode; while not running both are absent. *)
Definition spec_timestamps (timer : Timer) : bool :=
  if isRunning timer then
    match mode timer with
    | stopwatch => present (startedAt timer) && negb (present (endTime timer))
    | countdown => present (endTime timer) && negb (present (startedAt timer))
    end
  else negb (present (startedAt timer)) && negb (present (endTime timer)).

(** The timestamp discipline of the handlers: a running timer has
    [startedAt], and has [endTime] exactly when it is a countdown; a timer
    that is not running has no [startedAt]; a stopwatch has no [endTime]. *)
Definition timestamps_ok (timer : Timer) : bool :=
  (if isRunning timer
   then present (startedAt timer)
        && Bool.eqb (present (endTime timer)) (Mode_eqb (mode timer) countdown)
   else negb (present (startedAt timer)))
  && match mode timer with
     | stopwatch => negb (present (endTime timer))
     | countdown => true
     end.

(** The rejection of a start: the toast is shown and the timer is returned
    as it was. *)
Definition startRejected (now : Z) (timer : Timer) : Prop :=
  toggleTimer_timer now timer
  = (timer, [toast_error "Set a target duration first!"]).

(** ** Some states reached from the initial timer *)

(** A stopwatch started at clock reading [0]. *)
Definition epochStopwatch : Timer :=
  fst (run [Toggle 0] initialTimer).

(** A stopwatch on which the 30 s preset was applied. *)
Definition presetStopwatch : Timer :=
  fst (run [SetPreset 30000] initialTimer).

(** The initial timer switched to countdown, with a one-minute target. *)
Definition idleCountdown : Timer :=
  fst (run [ToggleMode; SetTargetDuration 1] initialTimer).

(** That countdown started at clock reading [1000]. *)
Definition runningCountdown : Timer :=
  fst (run [Toggle 1000] idleCountdown).

(** The same countdown paused half a minute later. *)
Definition pausedCountdown : Timer :=
  fst (run [Toggle 31000] runningCountdown).

(** The same countdown seen at zero by the update loop. *)
Definition completedCountdown : Timer :=
  fst (run [Tick 61000] runningCountdown).

(** A collection of two timers with different ids. *)
Definition secondTimer : Timer :=
  {| id := "2"; name := "Buffer"; time := 0; isRunning := false;
     mode := stopwatch; targetDuration := 0; hasCompleted := false;
     startedAt := None; pausedAt := None; endTime := None;
     accumulatedTime := 0 |}.

Definition twoTimers : list Timer := [runningCountdown; secondTimer].

(** A race of the two drivers around the zero crossing at 61000. *)
Definition raceTrace : list action :=
  [Tick 30000; Visible 61000; Tick 61016; Visible 70000; Tick 70016].

(** A countdown without a target shows 0, and if it is marked running it
    has no [endTime]. *)
Definition noTarget_ok (timer : Timer) : Prop :=
  mode timer = countdown -> targetDuration timer = 0 ->
  time timer = 0 /\ (isRunning timer = true -> endTime timer = None).

(** ** Driver passes against a deadline *)

(** Some driver pass of [l] reads a clock at or after [e]. *)
Definition deadlineSeen (e : Z) (l : list action) : bool :=
  existsb (fun a => match a with
                    | Tick now | Visible now => e <=? now
                    | _ => false
                    end) l.

(** [hasCompleted] is only set on a stopped countdown showing 0. *)
Definition completed_ok (timer : Timer) : bool :=
  if hasCompleted timer
  then negb (isRunning timer) && Mode_eqb (mode timer) countdown
       && (time timer =? 0)
  else true.

(** The clock reading carried by an action, if it carries one. *)
Definition reading (a : action) : option Z :=
  match a with
  | Tick now | Visible now | Toggle now => Some now
  | _ => None
  end.

(** Every clock reading carried by an action of [l] is positive, as the
    readings of [Date.now()] are. *)
Definition positiveReadings (l : list action) : bool :=
  forallb (fun a => match reading a with
                    | Some now => 0 <? now
                    | None => true
                    end) l.

(** The durations a user hands to an action are not negative. *)
Definition nonnegInput (a : action) : bool :=
  match a with
  | SetTargetDuration minutes => 0 <=? minutes
  | SetPreset ms => 0 <=? ms
  | _ => true
  end.

(** From clock reading [clock] on, the readings of [l] never go back and
    its inputs are not negative. *)
Fixpoint wellTimed (clock : Z) (l : list action) : bool :=
  match l with
  | [] => true
  | a :: l' =>
      nonnegInput a
      && match reading a with
         | Some now => (clock <=? now) && wellTimed now l'
         | None => wellTimed clock l'
         end
  end.

(** The last clock reading after [l], starting from [clock]. *)
Fixpoint clockAfter (clock : Z) (l : list action) : Z :=
  match l with
  | [] => clock
  | a :: l' =>
      clockAfter (match reading a with Some now => now | None => clock end) l'
  end.

(** No duration is negative and a present [startedAt] is not in the
    future of [clock]. *)
Definition durations_ok (clock : Z) (timer : Timer) : Prop :=
  0 <= time timer /\ 0 <= accumulatedTime timer
  /\ 0 <= targetDuration timer
  /\ (forall s, startedAt timer = Some s -> s <= clock).

(** The actions that leave the mode and the target duration alone. *)
Definition keepsSetup (a : action) : bool :=
  match a with
  | ToggleMode | SetTargetDuration _ | SetPreset _ => false
  | _ => true
  end.

(** ** Number to string *)

(** [n.toString()] for an integer [n]: decimal digits, with a minus sign
    for a negative number (JavaScript prints an integer this way up to
    10^21, far above any clock reading in milliseconds). *)
Definition toString (n : Z) : string :=
  NilZero.string_of_int (Z.to_int n).

(** Decimal reading of a string, used to state round trips. *)
Definition parseInteger (s : string) : option Z :=
  option_map Z.of_int (NilZero.int_of_string s).



(** ** formatTime *)




(** ** addTimer *)

(** The timer [addTimer] builds for a (trimmed) name. *)
Definition newTimer (now : Z) (timerName : string) : Timer :=
  {| id := toString now;
     name := timerName;
     time := 0;
     isRunning := false;
     mode := stopwatch;
     targetDuration := 0;
     hasCompleted := false;
     startedAt := None;
     pausedAt := None;
     endTime := None;
     accumulatedTime := 0 |}.

Section AddTimer.

(** [String.prototype.trim] is a builtin of the language, not code of the
    component: [addTimer] takes it as a parameter. *)
Variable trim : string -> string.

(** [addTimer] on the state made of the collection and the content of the
    name input; a string is truthy when it is not empty. *)
Definition addTimer (now : Z) (newTimerName : string) (prev : list Timer)
  : list Timer * string :=
  match trim newTimerName with
  | EmptyString => (prev, newTimerName)
  | trimmed => (prev ++ [newTimer now trimmed], EmptyString)
  end.

(** [addTimer] called once per pair of a clock reading and a typed name,
    in this order; only the collection is returned. *)
Fixpoint addTimers (adds : list (Z * string)) (prev : list Timer)
  : list Timer :=
  match adds with
  | [] => prev
  | (now, newTimerName) :: adds' =>
      addTimers adds' (fst (addTimer now newTimerName prev))
  end.

End AddTimer.

(** What [trim] does on a name made of ASCII characters only: among the
    characters below 128 the white space and line terminators are tab, line
    feed, vertical tab, form feed, carriage return and space.  It is used to
    run [addTimer] on ASCII names. *)
Definition asciiWhiteSpace (c : ascii) : bool :=
  let n := nat_of_ascii c in
  ((9 <=? n) && (n <=? 13) || (n =? 32))%nat.

Fixpoint trimAsciiStart (s : string) : string :=
  match s with
  | String c s' => if asciiWhiteSpace c then trimAsciiStart s' else s
  | EmptyString => EmptyString
  end.

Fixpoint trimAsciiEnd (s : string) : string :=
  match s with
  | String c s' =>
      match trimAsciiEnd s' with
      | EmptyString => if asciiWhiteSpace c then EmptyString
                       else String c EmptyString
      | kept => String c kept
      end
  | EmptyString => EmptyString
  end.

Definition trimAscii (s : string) : string :=
  trimAsciiEnd (trimAsciiStart s).

(** The clock readings of [adds] strictly increase from above [clock]. *)
Fixpoint increasing (clock : Z) (adds : list (Z * string)) : bool :=
  match adds with
  | [] => true
  | (now, _) :: adds' => (clock <? now) && increasing now adds'
  end.

(** ** What the component renders from the collection *)

(** The delete button is rendered only when [timers.length > 1]. *)
Definition deleteShown (timers : list Timer) : bool :=
  (1 <? length timers)%nat.

Definition runningCount (timers : list Timer) : nat :=
  length (filter isRunning timers).

Definition completedCount (timers : list Timer) : nat :=
  length (filter hasCompleted timers).

(** ** A handler applied to the timers carrying an id *)

Definition applyTo (target : string) (a : action) (prev : list Timer)
  : list Timer :=
  map (fun timer => if String.eqb (id timer) target
                    then fst (act a timer) else timer) prev.

(** ** The calculation history (hooks/useCalculationHistory.ts) *)

Module History.

Inductive EntryType :=
| mass | dilution | osmolarity | serial_dilution | multi_osmolarity.

Section Entries.

(** The type of the [inputs] field, a [Record<string, unknown>]. *)
Variable Inputs : Type.

Record HistoryEntry := mkHistoryEntry {
  id : string;
  type : EntryType;
  timestamp : Z;
  inputs : Inputs;
  result : string
}.

Definition MAX_HISTORY_ITEMS : nat := 20.

(** The updater of [addEntry]: the new entry goes first and only the most
    recent entries are kept ([slice(0, MAX_HISTORY_ITEMS)]). *)
Definition addEntry (now : Z) (type0 : EntryType) (inputs0 : Inputs)
    (result0 : string) (prev : list HistoryEntry) : list HistoryEntry :=
  let newEntry :=
    {| id := toString now; type := type0; timestamp := now;
       inputs := inputs0; result := result0 |} in
  let updated := newEntry :: prev in
  firstn MAX_HISTORY_ITEMS updated.

Definition deleteEntry (target : string) (prev : list HistoryEntry)
  : list HistoryEntry :=
  filter (fun entry => negb (String.eqb (id entry) target)) prev.

(** The state of one use of the hook, with the content of the
    ["chemlab_history"] key of localStorage: [None] when the key is absent,
    otherwise the array last written there (what [JSON.parse] gives back
    from what [JSON.stringify] wrote; writes are taken to succeed). *)
Record HookState := mkHookState {
  history : list HistoryEntry;
  isHydrated : bool;
  storage : option (list HistoryEntry)
}.

Definition loadHistoryFromStorage (stored : option (list HistoryEntry))
  : list HistoryEntry :=
  match stored with
  | Some saved => saved
  | None => []
  end.

(** The effect that runs when [history] or [isHydrated] changed. *)
Definition saveEffect (st : HookState) : HookState :=
  if isHydrated st && (0 <? length (history st))%nat
  then {| history := history st; isHydrated := isHydrated st;
          storage := Some (history st) |}
  else st.

(** The state a fresh use of the hook settles in over a given storage. *)
Definition mount (stored : option (list HistoryEntry)) : HookState :=
  saveEffect {| history := loadHistoryFromStorage stored;
                isHydrated := true; storage := stored |}.

Definition addEntry_hook (now : Z) (type0 : EntryType) (inputs0 : Inputs)
    (result0 : string) (st : HookState) : HookState :=
  saveEffect {| history := addEntry now type0 inputs0 result0 (history st);
                isHydrated := isHydrated st; storage := storage st |}.

Definition deleteEntry_hook (target : string) (st : HookState) : HookState :=
  saveEffect {| history := deleteEntry target (history st);
                isHydrated := isHydrated st; storage := storage st |}.

Definition clearHistory_hook (st : HookState) : HookState :=
  saveEffect {| history := []; isHydrated := isHydrated st;
                storage := None |}.

End Entries.

Arguments mkHistoryEntry {Inputs}.
Arguments id {Inputs}.
Arguments type {Inputs}.
Arguments timestamp {Inputs}.
Arguments inputs {Inputs}.
Arguments result {Inputs}.
Arguments addEntry {Inputs}.
Arguments deleteEntry {Inputs}.
Arguments mkHookState {Inputs}.
Arguments history {Inputs}.
Arguments isHydrated {Inputs}.
Arguments storage {Inputs}.
Arguments loadHistoryFromStorage {Inputs}.
Arguments saveEffect {Inputs}.
Arguments mount {Inputs}.
Arguments addEntry_hook {Inputs}.
Arguments deleteEntry_hook {Inputs}.
Arguments clearHistory_hook {Inputs}.

(** An entry of a mass calculation, with its inputs as pairs of strings. *)
Definition sampleEntry : HistoryEntry (list (string * string)) :=
  {| id := "1700000000000"; type := mass; timestamp := 1700000000000;
     inputs := [("mw", "58.44"); ("volume", "1")]%string;
     result := "58.44 g" |}.

End History.

(** * Properties *)

(** ** calculateCurrentTime *)

Lemma truthy_Some (n : Z) : n <> 0 -> truthy (Some n) = true.
Proof.
  intros Hn. unfold truthy. apply negb_true_iff, Z.eqb_neq. exact Hn.
Qed.

Lemma calculateCurrentTime_not_running (timer : Timer) (now : Z) :
  isRunning timer = false -> calculateCurrentTime timer now = time timer.
Proof.
  intros H. unfold calculateCurrentTime. now rewrite H.
Qed.

Lemma calculateCurrentTime_countdown (timer : Timer) (e now : Z) :
  isRunning timer = true -> mode timer = countdown ->
  endTime timer = Some e -> e <> 0 ->
  calculateCurrentTime timer now = Z.max 0 (e - now).
Proof.
  intros Hr Hm He Hz. unfold calculateCurrentTime.
  rewrite Hr, Hm, He. cbn [negb]. rewrite (truthy_Some _ Hz). reflexivity.
Qed.

Lemma calculateCurrentTime_stopwatch (timer : Timer) (s now : Z) :
  isRunning timer = true -> mode timer = stopwatch ->
  startedAt timer = Some s -> s <> 0 ->
  calculateCurrentTime timer now = accumulatedTime timer + (now - s).
Proof.
  intros Hr Hm Hs Hz. unfold calculateCurrentTime.
  rewrite Hr, Hm, Hs. cbn [negb]. rewrite (truthy_Some _ Hz). reflexivity.
Qed.

Lemma pausedCountdown_state :
  pausedCountdown
  = {| id := "1"; name := "Main Timer"; time := 30000; isRunning := false;
       mode := countdown; targetDuration := 60000; hasCompleted := false;
       startedAt := None; pausedAt := Some 31000; endTime := Some 61000;
       accumulatedTime := 0 |}.
Proof. reflexivity. Qed.

(** C2, as stated, fails: the countdown paused at 31000 keeps
    [endTime = 61000], and being not running it reads its committed
    [time = 30000] at every later instant, not [max 0 (61000 - now)]. *)
Lemma C2_paused_countdown_counterexample :
  ~ (forall (timer : Timer) (e now : Z),
        mode timer = countdown -> endTime timer = Some e ->
        calculateCurrentTime timer now = Z.max 0 (e - now)).
Proof.
  intros H.
  specialize (H pausedCountdown 61000 100000 eq_refl eq_refl).
  vm_compute in H. discriminate H.
Qed.

(** C2, amended: for a running countdown whose [endTime] is [e], [e]
    nonzero, the calculator returns [max 0 (e - now)] at every instant; the
    result is never negative and does not increase as [now] grows. *)
Theorem C2_running_countdown_remaining (timer : Timer) (e : Z) :
  isRunning timer = true -> mode timer = countdown ->
  endTime timer = Some e -> e <> 0 ->
  (forall now, calculateCurrentTime timer now = Z.max 0 (e - now))
  /\ (forall now, 0 <= calculateCurrentTime timer now)
  /\ (forall now1 now2, now1 <= now2 ->
        calculateCurrentTime timer now2 <= calculateCurrentTime timer now1).
Proof.
  intros Hr Hm He Hz.
  assert (Heq : forall now, calculateCurrentTime timer now = Z.max 0 (e - now))
    by (intros now; now apply calculateCurrentTime_countdown).
  split; [exact Heq|]. split.
  - intros now. rewrite Heq. apply Z.le_max_l.
  - intros now1 now2 Hle. rewrite !Heq. lia.
Qed.

Lemma C2_running_countdown_remaining_witness :
  (forall now, calculateCurrentTime runningCountdown now
               = Z.max 0 (61000 - now))
  /\ (forall now, 0 <= calculateCurrentTime runningCountdown now)
  /\ (forall now1 now2, now1 <= now2 ->
        calculateCurrentTime runningCountdown now2
        <= calculateCurrentTime runningCountdown now1).
Proof.
  apply (C2_running_countdown_remaining runningCountdown 61000).
  - reflexivity.
  - reflexivity.
  - reflexivity.
  - discriminate.
Defined.

(** [startedAt] is only written by the start branch of [toggleTimer], with
    the clock reading of the click. *)
Lemma act_startedAt_positive (a : action) (timer : Timer) :
  match reading a with Some now => 0 < now | None => True end ->
  (forall s0, startedAt timer = Some s0 -> 0 < s0) ->
  forall s, startedAt (fst (act a timer)) = Some s -> 0 < s.
Proof.
  intros Hnow Hold.
  destruct a as [now|now|now| | | |mins|ms]; cbn [act fst snd reading] in *;
    try (intros s Hs; discriminate Hs).
  - unfold updateTimers_timer.
    destruct (negb (isRunning timer)); [exact Hold|].
    destruct (countdownJustCompleted _ _);
      [intros s Hs; discriminate Hs|].
    destruct (_ >=? _); exact Hold.
  - unfold handleVisibilityChange_timer.
    destruct (negb (isRunning timer)); [exact Hold|].
    destruct (countdownJustCompleted _ _);
      [intros s Hs; discriminate Hs | exact Hold].
  - unfold toggleTimer_timer.
    destruct (isRunning timer); [intros s Hs; discriminate Hs|].
    destruct (_ && _); [exact Hold|].
    cbn. intros s [= <-]. exact Hnow.
Qed.

Lemma run_startedAt_positive (l : list action) (timer : Timer) :
  positiveReadings l = true ->
  (forall s0, startedAt timer = Some s0 -> 0 < s0) ->
  forall s, startedAt (fst (run l timer)) = Some s -> 0 < s.
Proof.
  revert timer. induction l as [|a l IH]; intros timer Hpos Hold;
    [exact Hold|].
  cbn in Hpos. apply andb_true_iff in Hpos. destruct Hpos as (Ha & Hl).
  cbn [run fst]. apply IH; [exact Hl|].
  apply act_startedAt_positive; [|exact Hold].
  destruct (reading a) as [now|]; [now apply Z.ltb_lt | exact I].
Qed.

(** C3: for every running stopwatch whose [startedAt] is a clock reading
    [s] and whose [accumulatedTime] is [a], the calculator returns
    [a + (now - s)] at every [now], in particular at every [now >= s], and
    this value does not decrease as [now] grows.  A clock reading is not 0:
    on every timer reached, from a timer whose [startedAt] is absent or
    positive, through handler invocations and driver passes at positive
    clock readings, a present [startedAt] is positive. *)
Theorem C3_running_stopwatch_elapsed :
  (forall (timer : Timer) (s : Z),
      isRunning timer = true -> mode timer = stopwatch ->
      startedAt timer = Some s -> s <> 0 ->
      (forall now, calculateCurrentTime timer now
                   = accumulatedTime timer + (now - s))
      /\ (forall now1 now2, now1 <= now2 ->
            calculateCurrentTime timer now1
            <= calculateCurrentTime timer now2))
  /\ (forall (l : list action) (timer0 : Timer) (s : Z),
         positiveReadings l = true ->
         (forall s0, startedAt timer0 = Some s0 -> 0 < s0) ->
         startedAt (fst (run l timer0)) = Some s -> 0 < s).
Proof.
  split.
  - intros timer s Hr Hm Hs Hz.
    assert (Heq : forall now, calculateCurrentTime timer now
                              = accumulatedTime timer + (now - s))
      by (intros now; now apply calculateCurrentTime_stopwatch).
    split; [exact Heq|].
    intros now1 now2 Hle. rewrite !Heq. lia.
  - intros l timer0 s Hpos Hold Hs.
    exact (run_startedAt_positive l timer0 Hpos Hold s Hs).
Qed.

Lemma C3_running_stopwatch_elapsed_witness :
  ((forall now,
       calculateCurrentTime
         (fst (run [Toggle 1000; Tick 1500] initialTimer)) now
       = accumulatedTime (fst (run [Toggle 1000; Tick 1500] initialTimer))
         + (now - 1000))
   /\ (forall now1 now2, now1 <= now2 ->
         calculateCurrentTime
           (fst (run [Toggle 1000; Tick 1500] initialTimer)) now1
         <= calculateCurrentTime
              (fst (run [Toggle 1000; Tick 1500] initialTimer)) now2))
  /\ 0 < 1000.
Proof.
  destruct C3_running_stopwatch_elapsed as (Helapsed & Hreading).
  split.
  - apply (Helapsed (fst (run [Toggle 1000; Tick 1500] initialTimer)) 1000).
    + reflexivity.
    + reflexivity.
    + reflexivity.
    + discriminate.
  - apply (Hreading [Toggle 1000; Tick 1500] initialTimer 1000).
    + reflexivity.
    + intros s0 Habs. discriminate Habs.
    + reflexivity.
Defined.

(** C9: the calculator is a total function of the timer and the clock
    reading; on the three paths that read no timestamp it returns the
    committed [time], the banked [accumulatedTime] and the committed [time]
    respectively. *)
Theorem C9_calculateCurrentTime_total (timer : Timer) (now : Z) :
  (exists v : Z, calculateCurrentTime timer now = v)
  /\ (isRunning timer = false ->
      calculateCurrentTime timer now = time timer)
  /\ (isRunning timer = true -> mode timer = stopwatch ->
      startedAt timer = None ->
      calculateCurrentTime timer now = accumulatedTime timer)
  /\ (isRunning timer = true -> mode timer = countdown ->
      endTime timer = None ->
      calculateCurrentTime timer now = time timer).
Proof.
  split; [eexists; reflexivity|].
  split; [apply calculateCurrentTime_not_running|].
  split; intros Hr Hm Hn; unfold calculateCurrentTime;
    rewrite Hr, Hm, Hn; reflexivity.
Qed.

Lemma C9_calculateCurrentTime_total_witness :
  (exists v : Z, calculateCurrentTime pausedCountdown 100000 = v)
  /\ calculateCurrentTime pausedCountdown 100000 = time pausedCountdown
  /\ calculateCurrentTime
       (setTargetDuration_timer 2 epochStopwatch) 500
     = accumulatedTime (setTargetDuration_timer 2 epochStopwatch)
  /\ calculateCurrentTime
       (setTargetDuration_timer 2 runningCountdown) 5000
     = time (setTargetDuration_timer 2 runningCountdown).
Proof.
  destruct (C9_calculateCurrentTime_total pausedCountdown 100000)
    as (Hdef & Hidle & _ & _).
  destruct (C9_calculateCurrentTime_total
              (setTargetDuration_timer 2 epochStopwatch) 500)
    as (_ & _ & Hsw & _).
  destruct (C9_calculateCurrentTime_total
              (setTargetDuration_timer 2 runningCountdown) 5000)
    as (_ & _ & _ & Hcd).
  split; [exact Hdef|].
  split; [apply Hidle; reflexivity|].
  split; [apply Hsw; reflexivity | apply Hcd; reflexivity].
Defined.

(** ** Starting: toggleTimer on a timer that is not running *)

Lemma start_guard_rejects (now : Z) (timer : Timer) :
  isRunning timer = false ->
  Mode_eqb (mode timer) countdown && (time timer =? 0) = true ->
  startRejected now timer.
Proof.
  intros Hr Hg. unfold startRejected, toggleTimer_timer.
  rewrite Hr, Hg. reflexivity.
Qed.

Lemma start_guard_accepts (now : Z) (timer : Timer) :
  isRunning timer = false ->
  Mode_eqb (mode timer) countdown && (time timer =? 0) = false ->
  snd (toggleTimer_timer now timer) = []
  /\ isRunning (fst (toggleTimer_timer now timer)) = true
  /\ hasCompleted (fst (toggleTimer_timer now timer)) = false
  /\ startedAt (fst (toggleTimer_timer now timer)) = Some now
  /\ pausedAt (fst (toggleTimer_timer now timer)) = None
  /\ endTime (fst (toggleTimer_timer now timer))
     = match mode timer with
       | countdown => Some (now + time timer)
       | stopwatch => None
       end
  /\ accumulatedTime (fst (toggleTimer_timer now timer))
     = accumulatedTime timer
  /\ time (fst (toggleTimer_timer now timer)) = time timer.
Proof.
  intros Hr Hg. unfold toggleTimer_timer. rewrite Hr, Hg. cbn.
  repeat split; reflexivity.
Qed.

Lemma startRejected_guard (now : Z) (timer : Timer) :
  isRunning timer = false ->
  startRejected now timer ->
  Mode_eqb (mode timer) countdown && (time timer =? 0) = true.
Proof.
  intros Hr Hrej.
  destruct (Mode_eqb (mode timer) countdown && (time timer =? 0)) eqn:Hg;
    [reflexivity|].
  destruct (start_guard_accepts now timer Hr Hg) as (Hnil & _).
  unfold startRejected in Hrej. rewrite Hrej in Hnil. discriminate Hnil.
Qed.

Lemma completedCountdown_state :
  completedCountdown
  = {| id := "1"; name := "Main Timer"; time := 0; isRunning := false;
       mode := countdown; targetDuration := 60000; hasCompleted := true;
       startedAt := None; pausedAt := None; endTime := None;
       accumulatedTime := 0 |}.
Proof. reflexivity. Qed.

(** C4, as stated, fails: the completed one-minute countdown is not
    running and has [targetDuration = 60000 > 0], yet the start at 70000 is
    rejected, because the guard reads [time], which completion set to 0. *)
Lemma C4_completed_countdown_counterexample :
  ~ (forall (timer : Timer) (now : Z),
        isRunning timer = false -> mode timer = countdown ->
        (startRejected now timer <-> targetDuration timer = 0)
        /\ (0 < targetDuration timer ->
            ~ startRejected now timer
            /\ isRunning (fst (toggleTimer_timer now timer)) = true)).
Proof.
  intros H.
  destruct (H completedCountdown 70000 eq_refl eq_refl) as (_ & Hpos).
  destruct Hpos as (_ & Hrun); [reflexivity|].
  vm_compute in Hrun. discriminate Hrun.
Qed.

(** C4, amended: on a countdown that is not running the start is rejected,
    leaving the timer as it was, exactly when the displayed [time] is 0;
    when [time] is not 0 the start is accepted without an error and sets
    [isRunning]. *)
Theorem C4_start_rejected_iff_time_zero (timer : Timer) (now : Z) :
  isRunning timer = false -> mode timer = countdown ->
  (startRejected now timer <-> time timer = 0)
  /\ (time timer <> 0 ->
      snd (toggleTimer_timer now timer) = []
      /\ isRunning (fst (toggleTimer_timer now timer)) = true).
Proof.
  intros Hr Hm. split.
  - split.
    + intros Hrej. apply (startRejected_guard now timer Hr) in Hrej.
      apply andb_true_iff in Hrej. destruct Hrej as (_ & Hz).
      now apply Z.eqb_eq.
    + intros Hz. apply start_guard_rejects; [exact Hr|].
      rewrite Hm, Hz. reflexivity.
  - intros Hnz.
    assert (Hg : Mode_eqb (mode timer) countdown && (time timer =? 0) = false).
    { apply andb_false_iff. right. now apply Z.eqb_neq. }
    destruct (start_guard_accepts now timer Hr Hg) as (Hnil & Hrun & _).
    split; assumption.
Qed.

Lemma C4_start_rejected_iff_time_zero_witness :
  (startRejected 70000 completedCountdown <-> time completedCountdown = 0)
  /\ (time completedCountdown <> 0 ->
      snd (toggleTimer_timer 70000 completedCountdown) = []
      /\ isRunning (fst (toggleTimer_timer 70000 completedCountdown)) = true).
Proof.
  apply (C4_start_rejected_iff_time_zero completedCountdown 70000).
  - reflexivity.
  - reflexivity.
Defined.

Lemma presetStopwatch_state :
  presetStopwatch
  = {| id := "1"; name := "Main Timer"; time := 30000; isRunning := false;
       mode := stopwatch; targetDuration := 0; hasCompleted := false;
       startedAt := None; pausedAt := None; endTime := None;
       accumulatedTime := 0 |}.
Proof. reflexivity. Qed.

(** C5, as stated, fails: the stopwatch that received the 30 s preset shows
    [time = 30000] with [accumulatedTime = 0]; its start at 1000 is accepted
    and leaves [accumulatedTime] at 0, not at the previous [time]. *)
Lemma C5_preset_stopwatch_counterexample :
  ~ (forall (timer : Timer) (now : Z),
        isRunning timer = false -> ~ startRejected now timer ->
        let timer' := fst (toggleTimer_timer now timer) in
        isRunning timer' = true /\ hasCompleted timer' = false
        /\ (mode timer = stopwatch ->
            startedAt timer' = Some now
            /\ accumulatedTime timer' = time timer)
        /\ (mode timer = countdown ->
            endTime timer' = Some (now + time timer))).
Proof.
  intros H.
  assert (Hacc : ~ startRejected 1000 presetStopwatch).
  { unfold startRejected. vm_compute. discriminate. }
  destruct (H presetStopwatch 1000 eq_refl Hacc) as (_ & _ & Hsw & _).
  destruct (Hsw eq_refl) as (_ & Habs).
  vm_compute in Habs. discriminate Habs.
Qed.

(** C5, amended: every accepted start of a timer that is not running sets
    [isRunning], clears [hasCompleted], sets [startedAt] to [now] and leaves
    [accumulatedTime] as it was; so for a stopwatch [accumulatedTime] is the
    previous [time] whenever the two agreed before the start; for a
    countdown [endTime] becomes [now + time]. *)
Theorem C5_accepted_start (timer : Timer) (now : Z) :
  isRunning timer = false -> ~ startRejected now timer ->
  let timer' := fst (toggleTimer_timer now timer) in
  isRunning timer' = true /\ hasCompleted timer' = false
  /\ startedAt timer' = Some now
  /\ accumulatedTime timer' = accumulatedTime timer
  /\ (mode timer = stopwatch -> accumulatedTime timer = time timer ->
      accumulatedTime timer' = time timer)
  /\ (mode timer = countdown -> endTime timer' = Some (now + time timer)).
Proof.
  intros Hr Hacc timer'.
  assert (Hg : Mode_eqb (mode timer) countdown && (time timer =? 0) = false).
  { destruct (Mode_eqb (mode timer) countdown && (time timer =? 0)) eqn:Hg;
      [|reflexivity].
    exfalso. apply Hacc. now apply start_guard_rejects. }
  destruct (start_guard_accepts now timer Hr Hg)
    as (_ & Hrun & Hdone & Hst & _ & Hend & Hsame & _).
  fold timer' in Hrun, Hdone, Hst, Hend, Hsame.
  repeat split; try assumption.
  - intros _ Heq. now rewrite Hsame.
  - intros Hm. rewrite Hend, Hm. reflexivity.
Qed.

Lemma C5_accepted_start_witness :
  let timer' := fst (toggleTimer_timer 1000 presetStopwatch) in
  isRunning timer' = true /\ hasCompleted timer' = false
  /\ startedAt timer' = Some 1000
  /\ accumulatedTime timer' = accumulatedTime presetStopwatch
  /\ (mode presetStopwatch = stopwatch ->
      accumulatedTime presetStopwatch = time presetStopwatch ->
      accumulatedTime timer' = time presetStopwatch)
  /\ (mode presetStopwatch = countdown ->
      endTime timer' = Some (1000 + time presetStopwatch)).
Proof.
  apply (C5_accepted_start presetStopwatch 1000).
  - reflexivity.
  - unfold startRejected. vm_compute. discriminate.
Defined.

(** ** setTargetDuration *)

(** C7, as stated, fails: the running one-minute countdown shows
    [time = 60000]; setting the target to 2 minutes overwrites it with
    120000. *)
Lemma C7_running_time_overwritten_counterexample :
  ~ (forall (minutes : Z) (timer : Timer),
        isRunning timer = true ->
        time (setTargetDuration_timer minutes timer) = time timer).
Proof.
  intros H. specialize (H 2 runningCountdown eq_refl).
  vm_compute in H. discriminate H.
Qed.

(** C7, amended: for every timer of the collection carrying the targeted
    id, whether it is running or not, [setTargetDuration] puts at its place
    a timer whose [targetDuration] and [time] are both the given minutes
    converted to milliseconds, with [hasCompleted] cleared and [startedAt],
    [pausedAt] and [endTime] absent; identity, name and mode are kept. *)
Theorem C7_setTargetDuration_sets_target_and_time
    (target : string) (minutes : Z) (prev : list Timer)
    (i : nat) (timer : Timer) :
  nth_error prev i = Some timer -> id timer = target ->
  exists timer',
    nth_error (setTargetDuration target minutes prev) i = Some timer'
    /\ targetDuration timer' = minutes * 60 * 1000
    /\ time timer' = minutes * 60 * 1000
    /\ hasCompleted timer' = false
    /\ startedAt timer' = None /\ pausedAt timer' = None
    /\ endTime timer' = None
    /\ id timer' = id timer /\ name timer' = name timer
    /\ mode timer' = mode timer.
Proof.
  intros Hi Hid. exists (setTargetDuration_timer minutes timer).
  split.
  - unfold setTargetDuration. rewrite nth_error_map, Hi. cbn.
    rewrite <- Hid, String.eqb_refl. reflexivity.
  - cbn. repeat split; reflexivity.
Qed.

Lemma C7_setTargetDuration_sets_target_and_time_witness :
  exists timer',
    nth_error (setTargetDuration "1" 2 [runningCountdown]) 0 = Some timer'
    /\ targetDuration timer' = 2 * 60 * 1000
    /\ time timer' = 2 * 60 * 1000
    /\ hasCompleted timer' = false
    /\ startedAt timer' = None /\ pausedAt timer' = None
    /\ endTime timer' = None
    /\ id timer' = id runningCountdown /\ name timer' = name runningCountdown
    /\ mode timer' = mode runningCountdown.
Proof.
  apply (C7_setTargetDuration_sets_target_and_time
           "1" 2 [runningCountdown] 0 runningCountdown).
  - reflexivity.
  - reflexivity.
Defined.

(** ** Pause and resume of a stopwatch *)

(** C8: pause/resume round trip of a stopwatch, the instants 0, 500, 700
    and 900 being counted from the clock reading [T] of the start, a
    positive number: after the start at [T] the pause at [T + 500] commits
    a display time of 500; after the resume at [T + 700] the calculator
    returns 700 at [T + 900].  The paused interval contributes nothing and
    the two run segments add up. *)
Theorem C8_stopwatch_round_trip (T : Z) :
  0 < T ->
  time (fst (run [Toggle T; Toggle (T + 500)] initialTimer)) = 500
  /\ calculateCurrentTime
       (fst (run [Toggle T; Toggle (T + 500); Toggle (T + 700)]
                 initialTimer)) (T + 900) = 700.
Proof.
  intros Hpos.
  assert (HT : (T =? 0) = false) by (apply Z.eqb_neq; lia).
  assert (HT' : (T + 700 =? 0) = false) by (apply Z.eqb_neq; lia).
  cbn. unfold calculateCurrentTime. cbn. rewrite HT. cbn.
  split; [lia|]. rewrite HT'. cbn. lia.
Qed.

Lemma C8_stopwatch_round_trip_witness :
  time (fst (run [Toggle 1700000000000; Toggle (1700000000000 + 500)]
                 initialTimer)) = 500
  /\ calculateCurrentTime
       (fst (run [Toggle 1700000000000; Toggle (1700000000000 + 500);
                  Toggle (1700000000000 + 700)] initialTimer))
       (1700000000000 + 900) = 700.
Proof.
  apply (C8_stopwatch_round_trip 1700000000000). reflexivity.
Defined.

(** A clock reading of 0, which [Date.now()] does not return, would be
    taken for an absent [startedAt] by the truthiness test of the
    calculator: the stopwatch started at reading 0 reads its banked time. *)
Example reading_zero_taken_for_absent :
  startedAt epochStopwatch = Some 0
  /\ calculateCurrentTime epochStopwatch 500 = accumulatedTime epochStopwatch
  /\ time (fst (run [Toggle 0; Toggle 500] initialTimer)) = 0.
Proof.
  repeat split; reflexivity.
Qed.

(** ** The frame of the per-id handlers *)

Section Frame.

Variable target : string.
Variable prev : list Timer.
Variable i : nat.
Variable other : Timer.
Hypothesis Hat : nth_error prev i = Some other.
Hypothesis Hother : id other <> target.

Lemma other_id_eqb : String.eqb (id other) target = false.
Proof. now apply String.eqb_neq. Qed.

(** Every handler written [t.id === id ? g t : t]. *)
Lemma map_matching_other (g : Timer -> Timer) :
  nth_error (map (fun timer => if String.eqb (id timer) target
                               then g timer else timer) prev) i
  = Some other.
Proof.
  rewrite nth_error_map, Hat. cbn. now rewrite other_id_eqb.
Qed.

Lemma toggleMode_other : nth_error (toggleMode target prev) i = Some other.
Proof.
  unfold toggleMode. rewrite nth_error_map, Hat. cbn.
  now rewrite other_id_eqb.
Qed.

Lemma toggleTimer_other (now : Z) :
  nth_error (fst (toggleTimer target now prev)) i = Some other.
Proof.
  unfold toggleTimer. cbn [fst]. rewrite !nth_error_map, Hat. cbn.
  now rewrite other_id_eqb.
Qed.

End Frame.

Lemma deleteTimer_In (target : string) (prev : list Timer) (timer : Timer) :
  In timer (deleteTimer target prev) <-> In timer prev /\ id timer <> target.
Proof.
  unfold deleteTimer. rewrite filter_In, negb_true_iff, String.eqb_neq.
  reflexivity.
Qed.

Lemma deleteTimer_keeps_place (target : string) (l1 l2 : list Timer)
    (other : Timer) :
  id other <> target ->
  deleteTimer target (l1 ++ other :: l2)
  = deleteTimer target l1 ++ other :: deleteTimer target l2.
Proof.
  intros Hother. unfold deleteTimer. rewrite filter_app. cbn.
  apply String.eqb_neq in Hother. now rewrite Hother.
Qed.

Lemma deleteTimer_not_found (target : string) (prev : list Timer) :
  (forall timer, In timer prev -> id timer <> target) ->
  deleteTimer target prev = prev.
Proof.
  induction prev as [|timer rest IH]; intros Hall; [reflexivity|].
  cbn. assert (Hne : id timer <> target) by (apply Hall; now left).
  apply String.eqb_neq in Hne. rewrite Hne. cbn. f_equal.
  apply IH. intros t Ht. apply Hall. now right.
Qed.

(** C10: each per-id handler keeps the length of the collection and leaves
    at its place, unchanged, every timer whose id is not the targeted one;
    [deleteTimer] keeps exactly the timers whose id is not the targeted one,
    each at its place among the others. *)
Theorem C10_other_timers_unchanged (target : string) (prev : list Timer) :
  (forall (i : nat) (other : Timer),
      nth_error prev i = Some other -> id other <> target ->
      (forall now, nth_error (fst (toggleTimer target now prev)) i
                   = Some other)
      /\ nth_error (resetTimer target prev) i = Some other
      /\ nth_error (zeroTimer target prev) i = Some other
      /\ (forall minutes,
             nth_error (setTargetDuration target minutes prev) i = Some other)
      /\ (forall ms, nth_error (setPreset target ms prev) i = Some other)
      /\ nth_error (toggleMode target prev) i = Some other)
  /\ ((forall now, length (fst (toggleTimer target now prev)) = length prev)
      /\ length (resetTimer target prev) = length prev
      /\ length (zeroTimer target prev) = length prev
      /\ (forall minutes,
             length (setTargetDuration target minutes prev) = length prev)
      /\ (forall ms, length (setPreset target ms prev) = length prev)
      /\ length (toggleMode target prev) = length prev)
  /\ (forall timer,
         In timer (deleteTimer target prev)
         <-> In timer prev /\ id timer <> target)
  /\ (forall l1 other l2,
         prev = l1 ++ other :: l2 -> id other <> target ->
         deleteTimer target prev
         = deleteTimer target l1 ++ other :: deleteTimer target l2).
Proof.
  split; [|split; [|split]].
  - intros i other Hat Hother.
    split; [intros now; now apply toggleTimer_other|].
    split; [now apply map_matching_other|].
    split; [now apply map_matching_other|].
    split; [intros minutes; now apply map_matching_other|].
    split; [intros ms; now apply map_matching_other|].
    now apply toggleMode_other.
  - unfold toggleTimer, resetTimer, zeroTimer, setTargetDuration, setPreset,
      toggleMode. cbn [fst].
    repeat split; intros; now rewrite ?length_map.
  - intros timer. apply deleteTimer_In.
  - intros l1 other l2 -> Hother. now apply deleteTimer_keeps_place.
Qed.

Lemma C10_other_timers_unchanged_witness :
  nth_error (resetTimer "1" twoTimers) 1 = Some secondTimer
  /\ nth_error (fst (toggleTimer "1" 31000 twoTimers)) 1 = Some secondTimer
  /\ In secondTimer (deleteTimer "1" twoTimers).
Proof.
  destruct (C10_other_timers_unchanged "1" twoTimers)
    as (Hframe & _ & Hdel & _).
  destruct (Hframe 1%nat secondTimer) as (Htoggle & Hreset & _).
  - reflexivity.
  - cbn. discriminate.
  - split; [exact Hreset|]. split; [apply Htoggle|].
    apply Hdel. split.
    + right. left. reflexivity.
    + cbn. discriminate.
Defined.

(** ** The timestamp discipline *)

Lemma idleCountdown_state :
  idleCountdown
  = {| id := "1"; name := "Main Timer"; time := 60000; isRunning := false;
       mode := countdown; targetDuration := 60000; hasCompleted := false;
       startedAt := None; pausedAt := None; endTime := None;
       accumulatedTime := 0 |}.
Proof. reflexivity. Qed.

Lemma runningCountdown_state :
  runningCountdown
  = {| id := "1"; name := "Main Timer"; time := 60000; isRunning := true;
       mode := countdown; targetDuration := 60000; hasCompleted := false;
       startedAt := Some 1000; pausedAt := None; endTime := Some 61000;
       accumulatedTime := 0 |}.
Proof. reflexivity. Qed.

(** C6, as stated, fails: the idle one-minute countdown has no timestamp;
    its start at 1000 sets both [startedAt = 1000] and [endTime = 61000]. *)
Lemma C6_start_countdown_counterexample :
  ~ (forall (a : action) (timer : Timer),
        spec_timestamps timer = true ->
        spec_timestamps (fst (act a timer)) = true).
Proof.
  intros H. specialize (H (Toggle 1000) idleCountdown eq_refl).
  vm_compute in H. discriminate H.
Qed.

Lemma timestamps_ok_completedTimer (timer : Timer) :
  timestamps_ok (completedTimer timer) = true.
Proof.
  unfold timestamps_ok. cbn. destruct (mode timer); reflexivity.
Qed.

Lemma timestamps_ok_withTime (timer : Timer) (currentTime : Z) :
  timestamps_ok (withTime timer currentTime) = timestamps_ok timer.
Proof. reflexivity. Qed.

Lemma timestamps_ok_stopped (timer timer' : Timer) :
  isRunning timer' = false -> startedAt timer' = None ->
  endTime timer' = None ->
  timestamps_ok timer' = true.
Proof.
  intros Hr Hs He. unfold timestamps_ok. rewrite Hr, Hs, He. cbn.
  destruct (mode timer'); reflexivity.
Qed.

(** C6, amended: every handler and every driver pass preserves the
    discipline "a running timer has [startedAt], and has [endTime] exactly
    when it is a countdown; a timer that is not running has no [startedAt];
    a stopwatch has no [endTime]"; [setTargetDuration] is covered on timers
    that are not running. *)
Theorem C6_timestamps_ok_preserved (a : action) (timer : Timer) :
  timestamps_ok timer = true ->
  (forall minutes, a = SetTargetDuration minutes -> isRunning timer = false) ->
  timestamps_ok (fst (act a timer)) = true.
Proof.
  intros Hok Hset.
  destruct a as [now|now|now| | | |minutes|ms]; cbn [act fst snd].
  - unfold updateTimers_timer.
    destruct (negb (isRunning timer)); [exact Hok|].
    destruct (countdownJustCompleted timer (calculateCurrentTime timer now));
      [apply timestamps_ok_completedTimer|].
    destruct (Z.abs (calculateCurrentTime timer now - time timer) >=? 10);
      [|exact Hok].
    cbn [fst]. now rewrite timestamps_ok_withTime.
  - unfold handleVisibilityChange_timer.
    destruct (negb (isRunning timer)); [exact Hok|].
    destruct (countdownJustCompleted timer (calculateCurrentTime timer now));
      [apply timestamps_ok_completedTimer|].
    cbn [fst]. now rewrite timestamps_ok_withTime.
  - unfold toggleTimer_timer.
    destruct (isRunning timer) eqn:Hr.
    + cbn [fst]. unfold timestamps_ok in *. cbn.
      apply andb_true_iff in Hok. destruct Hok as (_ & Hsw).
      exact Hsw.
    + destruct (Mode_eqb (mode timer) countdown && (time timer =? 0));
        [exact Hok|].
      cbn [fst]. unfold timestamps_ok. cbn.
      destruct (mode timer); reflexivity.
  - now apply (timestamps_ok_stopped timer).
  - now apply (timestamps_ok_stopped timer).
  - now apply (timestamps_ok_stopped timer).
  - specialize (Hset minutes eq_refl).
    now apply (timestamps_ok_stopped timer).
  - now apply (timestamps_ok_stopped timer).
Qed.

Lemma C6_timestamps_ok_preserved_witness :
  timestamps_ok (fst (act (Toggle 1000) idleCountdown)) = true.
Proof.
  apply (C6_timestamps_ok_preserved (Toggle 1000) idleCountdown).
  - reflexivity.
  - intros minutes Habs. discriminate Habs.
Defined.

(** ** The drivers on a collection are the per-timer passes *)

Lemma updateTimers_timer_unchanged (now : Z) (timer : Timer) :
  snd (fst (updateTimers_timer now timer)) = false ->
  fst (fst (updateTimers_timer now timer)) = timer.
Proof.
  unfold updateTimers_timer.
  destruct (negb (isRunning timer)); [reflexivity|].
  destruct (countdownJustCompleted timer (calculateCurrentTime timer now));
    [discriminate|].
  destruct (Z.abs (calculateCurrentTime timer now - time timer) >=? 10);
    [discriminate | reflexivity].
Qed.

(** Returning [prev] when [hasChanges] stayed false returns an array with
    the same timers as [updated]. *)
Lemma updateTimers_per_timer (now : Z) (prev : list Timer) :
  fst (updateTimers now prev) = map (fun t => fst (act (Tick now) t)) prev
  /\ snd (updateTimers now prev)
     = concat (map (fun t => snd (act (Tick now) t)) prev).
Proof.
  unfold updateTimers. cbn [fst snd]. rewrite !map_map. split.
  - destruct (existsb _ _) eqn:Hch; [reflexivity|].
    induction prev as [|timer rest IH]; [reflexivity|].
    cbn in Hch. apply orb_false_iff in Hch. destruct Hch as (Hhd & Htl).
    cbn [map act fst]. rewrite (updateTimers_timer_unchanged _ _ Hhd).
    f_equal. apply IH. exact Htl.
  - reflexivity.
Qed.

Lemma handleVisibilityChange_per_timer (now : Z) (prev : list Timer) :
  handleVisibilityChange now visible hidden prev
  = (map (fun t => fst (act (Visible now) t)) prev,
     concat (map (fun t => snd (act (Visible now) t)) prev),
     visible).
Proof.
  unfold handleVisibilityChange. rewrite !map_map. reflexivity.
Qed.

(** ** Completion fires at most once *)

Lemma act_name (a : action) (timer : Timer) :
  name (fst (act a timer)) = name timer.
Proof.
  destruct a as [now|now|now| | | |minutes|ms]; cbn [act fst snd];
    try reflexivity.
  - unfold updateTimers_timer.
    destruct (negb (isRunning timer)); [reflexivity|].
    destruct (countdownJustCompleted _ _); [reflexivity|].
    destruct (_ >=? _); reflexivity.
  - unfold handleVisibilityChange_timer.
    destruct (negb (isRunning timer)); [reflexivity|].
    destruct (countdownJustCompleted _ _); reflexivity.
  - unfold toggleTimer_timer.
    destruct (isRunning timer); [reflexivity|].
    destruct (_ && _); reflexivity.
Qed.

(** On a timer that is not running, nothing but a start sets [isRunning]
    or issues an effect. *)
Lemma act_idle (a : action) (timer : Timer) :
  isRunning timer = false -> isStart a timer = false ->
  isRunning (fst (act a timer)) = false /\ snd (act a timer) = [].
Proof.
  intros Hr Hns.
  destruct a as [now|now|now| | | |minutes|ms]; cbn [act fst snd].
  - unfold updateTimers_timer. rewrite Hr. cbn. now split.
  - unfold handleVisibilityChange_timer. rewrite Hr. cbn. now split.
  - cbn in Hns. rewrite Hr in Hns. discriminate Hns.
  - now split.
  - now split.
  - now split.
  - now split.
  - now split.
Qed.

(** An action that is not a start issues no effect, unless it is a driver
    pass that commits the completion. *)
Lemma act_effects (a : action) (timer : Timer) :
  isStart a timer = false ->
  snd (act a timer) = []
  \/ (isDriver a = true
      /\ act a timer = (completedTimer timer, completionEffects timer)).
Proof.
  intros Hns.
  destruct a as [now|now|now| | | |minutes|ms]; cbn [act fst snd isDriver];
    try (left; reflexivity).
  - unfold updateTimers_timer.
    destruct (negb (isRunning timer)); [now left|].
    destruct (countdownJustCompleted _ _); [now right|].
    destruct (_ >=? _); now left.
  - unfold handleVisibilityChange_timer.
    destruct (negb (isRunning timer)); [now left|].
    destruct (countdownJustCompleted _ _); [now right | now left].
  - cbn in Hns. apply negb_false_iff in Hns.
    unfold toggleTimer_timer. rewrite Hns. now left.
Qed.

Lemma run_idle (l : list action) (timer : Timer) :
  isRunning timer = false -> noStart l timer = true ->
  isRunning (fst (run l timer)) = false /\ snd (run l timer) = [].
Proof.
  revert timer. induction l as [|a l IH]; intros timer Hr Hns.
  - now split.
  - cbn in Hns. apply andb_true_iff in Hns. destruct Hns as (Ha & Hl).
    apply negb_true_iff in Ha.
    destruct (act_idle a timer Hr Ha) as (Hr' & He).
    destruct (IH _ Hr' Hl) as (Hr'' & He').
    cbn [run fst snd]. rewrite He, He'. now split.
Qed.

Lemma run_effects (l : list action) (timer : Timer) :
  noStart l timer = true ->
  snd (run l timer) = [] \/ snd (run l timer) = completionEffects timer.
Proof.
  revert timer. induction l as [|a l IH]; intros timer Hns.
  - now left.
  - cbn in Hns. apply andb_true_iff in Hns. destruct Hns as (Ha & Hl).
    apply negb_true_iff in Ha. cbn [run fst snd].
    destruct (act_effects a timer Ha) as [He | (_ & Hdone)].
    + rewrite He. cbn [app].
      destruct (IH _ Hl) as [He' | He']; [now left|].
      right. rewrite He'. unfold completionEffects.
      now rewrite act_name.
    + rewrite Hdone in *. cbn [fst snd] in *.
      destruct (run_idle l (completedTimer timer) eq_refl Hl) as (_ & He').
      rewrite He', app_nil_r. now right.
Qed.

Lemma run_drivers_noStart (l : list action) (timer : Timer) :
  forallb isDriver l = true -> noStart l timer = true.
Proof.
  revert timer. induction l as [|a l IH]; intros timer Hd; [reflexivity|].
  cbn in Hd. apply andb_true_iff in Hd. destruct Hd as (Ha & Hl).
  cbn. rewrite (IH _ Hl), andb_true_r.
  destruct a; try discriminate Ha; reflexivity.
Qed.

Lemma run_drivers_idle (l : list action) (timer : Timer) :
  isRunning timer = false -> forallb isDriver l = true ->
  run l timer = (timer, []).
Proof.
  revert timer. induction l as [|a l IH]; intros timer Hr Hd; [reflexivity|].
  cbn in Hd. apply andb_true_iff in Hd. destruct Hd as (Ha & Hl).
  assert (Hstep : act a timer = (timer, [])).
  { destruct a; try discriminate Ha; cbn [act].
    - unfold updateTimers_timer. now rewrite Hr.
    - unfold handleVisibilityChange_timer. now rewrite Hr. }
  cbn [run]. rewrite Hstep. cbn [fst snd]. now rewrite (IH _ Hr Hl).
Qed.

(** C1: over any sequence of driver passes and handler invocations that
    contains no start, the effects issued for a timer are either none or
    the effects of a single completion, so at most one completion
    notification is sent; the driver pass that sees the running countdown
    at zero commits the completed state with [hasCompleted] set, every
    later driver pass returns that state unchanged without an effect, and
    no driver pass issues an effect for a timer whose [hasCompleted] is
    set. *)
Theorem C1_completion_fires_at_most_once :
  (forall (l : list action) (timer : Timer),
      noStart l timer = true ->
      (snd (run l timer) = [] \/ snd (run l timer) = completionEffects timer)
      /\ (completions (snd (run l timer)) <= 1)%nat)
  /\ (forall (a : action) (timer : Timer) (now : Z),
         a = Tick now \/ a = Visible now ->
         isRunning timer = true ->
         countdownJustCompleted timer (calculateCurrentTime timer now) = true ->
         act a timer = (completedTimer timer, completionEffects timer)
         /\ hasCompleted (completedTimer timer) = true
         /\ isRunning (completedTimer timer) = false
         /\ (forall l, forallb isDriver l = true ->
               run l (completedTimer timer) = (completedTimer timer, [])))
  /\ (forall (a : action) (timer : Timer),
         isDriver a = true -> hasCompleted timer = true ->
         snd (act a timer) = []).
Proof.
  split; [|split].
  - intros l timer Hns. pose proof (run_effects l timer Hns) as He.
    split; [exact He|].
    destruct He as [He | He]; rewrite He; cbn; lia.
  - intros a timer now Ha Hr Hz.
    split; [|split; [reflexivity|split; [reflexivity|]]].
    + destruct Ha as [-> | ->]; cbn [act].
      * unfold updateTimers_timer. rewrite Hr, Hz. reflexivity.
      * unfold handleVisibilityChange_timer. rewrite Hr, Hz. reflexivity.
    + intros l Hl. now apply run_drivers_idle.
  - intros a timer Ha Hc.
    assert (Hno : forall c, countdownJustCompleted timer c = false).
    { intros c. unfold countdownJustCompleted. rewrite Hc. cbn.
      now rewrite andb_false_r. }
    destruct a; try discriminate Ha; cbn [act snd].
    + unfold updateTimers_timer.
      destruct (negb (isRunning timer)); [reflexivity|].
      rewrite Hno. destruct (_ >=? _); reflexivity.
    + unfold handleVisibilityChange_timer.
      destruct (negb (isRunning timer)); [reflexivity|].
      rewrite Hno. reflexivity.
Qed.

Lemma C1_completion_fires_at_most_once_witness :
  ((snd (run raceTrace runningCountdown) = []
    \/ snd (run raceTrace runningCountdown)
       = completionEffects runningCountdown)
   /\ (completions (snd (run raceTrace runningCountdown)) <= 1)%nat)
  /\ (act (Visible 61000) (fst (run [Tick 30000] runningCountdown))
      = (completedCountdown, completionEffects runningCountdown)
      /\ run [Tick 61016; Visible 70000; Tick 70016] completedCountdown
         = (completedCountdown, []))
  /\ snd (act (Tick 61016) completedCountdown) = [].
Proof.
  destruct C1_completion_fires_at_most_once as (Hrun & Hfirst & Hlater).
  split; [apply Hrun; reflexivity|]. split.
  - destruct (Hfirst (Visible 61000) (fst (run [Tick 30000] runningCountdown))
                61000) as (Hact & _ & _ & Hnoop).
    + right. reflexivity.
    + reflexivity.
    + reflexivity.
    + split; [exact Hact|]. apply Hnoop. reflexivity.
  - apply Hlater; reflexivity.
Defined.

(** In the race the completion is issued, once. *)
Example raceTrace_effects :
  snd (run raceTrace runningCountdown)
  = [playAlarm 5; showNotification "Main Timer"; toast_success "Main Timer"].
Proof. reflexivity. Qed.

(** ** A countdown without a target cannot be started *)

Lemma act_noTarget_ok (a : action) (timer : Timer) :
  noTarget_ok timer -> noTarget_ok (fst (act a timer)).
Proof.
  intros Hok.
  assert (Hcalc : forall now, mode timer = countdown ->
            targetDuration timer = 0 -> isRunning timer = true ->
            calculateCurrentTime timer now = 0).
  { intros now Hm Ht Hr. destruct (Hok Hm Ht) as (Hz & He).
    unfold calculateCurrentTime. rewrite Hr, Hm, (He Hr). exact Hz. }
  destruct a as [now|now|now| | | |minutes|ms]; cbn [act fst snd].
  - unfold updateTimers_timer.
    destruct (isRunning timer) eqn:Hr; cbn [negb]; [|exact Hok].
    destruct (countdownJustCompleted _ _).
    + intros _ _. cbn. split; [reflexivity | discriminate].
    + destruct (_ >=? _); [|exact Hok].
      intros Hm Ht. cbn in *. split; [now apply Hcalc|].
      intros _. now apply Hok.
  - unfold handleVisibilityChange_timer.
    destruct (isRunning timer) eqn:Hr; cbn [negb]; [|exact Hok].
    destruct (countdownJustCompleted _ _).
    + intros _ _. cbn. split; [reflexivity | discriminate].
    + intros Hm Ht. cbn in *. split; [now apply Hcalc|].
      intros _. now apply Hok.
  - unfold toggleTimer_timer.
    destruct (isRunning timer) eqn:Hr.
    + intros Hm Ht. cbn in *. split; [now apply Hcalc | discriminate].
    + destruct (Mode_eqb (mode timer) countdown && (time timer =? 0)) eqn:Hg;
        [exact Hok|].
      intros Hm Ht. cbn in *. destruct (Hok Hm Ht) as (Hz & _).
      rewrite Hm, Hz in Hg. discriminate Hg.
  - intros Hm Ht. cbn in *. rewrite Hm. split; [exact Ht | discriminate].
  - intros Hm Ht. cbn in *. split; [reflexivity | discriminate].
  - intros Hm Ht. cbn in *. destruct (mode timer); [|discriminate Hm].
    split; [exact Ht | discriminate].
  - intros Hm Ht. cbn in *. split; [exact Ht | reflexivity].
  - intros Hm Ht. cbn in *. rewrite Hm in Ht. split; [exact Ht | discriminate].
Qed.

Lemma run_noTarget_ok (l : list action) (timer : Timer) :
  noTarget_ok timer -> noTarget_ok (fst (run l timer)).
Proof.
  revert timer. induction l as [|a l IH]; intros timer Hok; [exact Hok|].
  cbn [run fst]. apply IH. now apply act_noTarget_ok.
Qed.

(** On every state the handlers and drivers reach from the initial timer,
    a countdown that is not running and has [targetDuration = 0] rejects
    the start. *)
Lemma start_rejected_without_target (l : list action) (now : Z) :
  let timer := fst (run l initialTimer) in
  isRunning timer = false -> mode timer = countdown ->
  targetDuration timer = 0 ->
  startRejected now timer.
Proof.
  intros timer Hr Hm Ht.
  assert (Hok : noTarget_ok timer).
  { apply run_noTarget_ok. intros Habs. discriminate Habs. }
  destruct (Hok Hm Ht) as (Hz & _).
  apply start_guard_rejects; [exact Hr|]. rewrite Hm, Hz. reflexivity.
Qed.

(** ** A running countdown against its deadline *)

Section RunningCountdown.

Variable timer : Timer.
Variable e : Z.
Hypothesis Hrun : isRunning timer = true.
Hypothesis Hmode : mode timer = countdown.
Hypothesis Hfresh : hasCompleted timer = false.
Hypothesis Hend : endTime timer = Some e.
Hypothesis Hnz : e <> 0.

Lemma countdownJustCompleted_deadline (now : Z) :
  countdownJustCompleted timer (calculateCurrentTime timer now) = (e <=? now).
Proof.
  unfold countdownJustCompleted.
  rewrite (calculateCurrentTime_countdown timer e now Hrun Hmode Hend Hnz).
  rewrite Hmode, Hfresh, Hend, (truthy_Some e Hnz). cbn.
  rewrite !andb_true_r.
  destruct (Z.leb_spec e now); [apply Z.eqb_eq | apply Z.eqb_neq]; lia.
Qed.

Lemma driver_pass_after_deadline (a : action) (now : Z) :
  a = Tick now \/ a = Visible now -> e <= now ->
  act a timer = (completedTimer timer, completionEffects timer).
Proof.
  intros Ha Hle.
  assert (Hz := countdownJustCompleted_deadline now).
  apply Z.leb_le in Hle. rewrite Hle in Hz.
  destruct Ha as [-> | ->]; cbn [act].
  - unfold updateTimers_timer. rewrite Hrun, Hz. reflexivity.
  - unfold handleVisibilityChange_timer. rewrite Hrun, Hz. reflexivity.
Qed.

Lemma driver_pass_before_deadline (a : action) (now : Z) :
  a = Tick now \/ a = Visible now -> now < e ->
  snd (act a timer) = []
  /\ isRunning (fst (act a timer)) = true
  /\ mode (fst (act a timer)) = countdown
  /\ hasCompleted (fst (act a timer)) = false
  /\ endTime (fst (act a timer)) = Some e.
Proof.
  intros Ha Hlt.
  assert (Hz := countdownJustCompleted_deadline now).
  apply Z.leb_gt in Hlt. rewrite Hlt in Hz.
  destruct Ha as [-> | ->]; cbn [act].
  - unfold updateTimers_timer. rewrite Hrun, Hz. cbn [negb].
    destruct (_ >=? _); cbn; repeat split; assumption.
  - unfold handleVisibilityChange_timer. rewrite Hrun, Hz. cbn.
    repeat split; assumption.
Qed.

End RunningCountdown.

(** X1: a driver pass over a running, not yet completed countdown with a
    nonzero [endTime = e] commits the completion and issues its effects
    exactly when the clock reading has reached [e]; before [e] it issues
    nothing and the countdown keeps running towards the same [endTime]. *)
Theorem driver_pass_completes_iff_deadline_reached
    (a : action) (timer : Timer) (e now : Z) :
  a = Tick now \/ a = Visible now ->
  isRunning timer = true -> mode timer = countdown ->
  hasCompleted timer = false -> endTime timer = Some e -> e <> 0 ->
  (e <= now ->
   act a timer = (completedTimer timer, completionEffects timer))
  /\ (now < e ->
      snd (act a timer) = []
      /\ isRunning (fst (act a timer)) = true
      /\ endTime (fst (act a timer)) = Some e).
Proof.
  intros Ha Hr Hm Hf He Hz. split.
  - intros Hle.
    exact (driver_pass_after_deadline timer e Hr Hm Hf He Hz a now Ha Hle).
  - intros Hlt.
    destruct (driver_pass_before_deadline timer e Hr Hm Hf He Hz a now Ha Hlt)
      as (H1 & H2 & _ & _ & H5).
    now repeat split.
Qed.

Lemma driver_pass_completes_iff_deadline_reached_witness :
  (61000 <= 61016 ->
   act (Tick 61016) runningCountdown
   = (completedTimer runningCountdown, completionEffects runningCountdown))
  /\ (61016 < 61000 ->
      snd (act (Tick 61016) runningCountdown) = []
      /\ isRunning (fst (act (Tick 61016) runningCountdown)) = true
      /\ endTime (fst (act (Tick 61016) runningCountdown)) = Some 61000).
Proof.
  apply (driver_pass_completes_iff_deadline_reached
           (Tick 61016) runningCountdown 61000 61016).
  - left. reflexivity.
  - reflexivity.
  - reflexivity.
  - reflexivity.
  - reflexivity.
  - discriminate.
Defined.

(** X2: over any sequence of driver passes, a running, not yet completed
    countdown with a nonzero [endTime = e] issues the completion effects
    exactly once if some pass reads a clock at or after [e], and issues
    nothing otherwise. *)
Theorem driver_passes_complete_exactly_once
    (l : list action) (timer : Timer) (e : Z) :
  forallb isDriver l = true ->
  isRunning timer = true -> mode timer = countdown ->
  hasCompleted timer = false -> endTime timer = Some e -> e <> 0 ->
  snd (run l timer)
  = (if deadlineSeen e l then completionEffects timer else [])
  /\ (deadlineSeen e l = true ->
      isRunning (fst (run l timer)) = false
      /\ hasCompleted (fst (run l timer)) = true
      /\ time (fst (run l timer)) = 0).
Proof.
  revert timer. induction l as [|a l IH]; intros timer Hd Hr Hm Hf He Hz.
  - split; [reflexivity | discriminate].
  - cbn in Hd. apply andb_true_iff in Hd. destruct Hd as (Ha & Hl).
    assert (Hnow : exists now, (a = Tick now \/ a = Visible now)
                               /\ deadlineSeen e (a :: l)
                                  = ((e <=? now) || deadlineSeen e l)).
    { destruct a; try discriminate Ha; eexists; split;
        try (left; reflexivity); try (right; reflexivity); reflexivity. }
    destruct Hnow as (now & Hnow & Hseen). rewrite Hseen.
    cbn [run fst snd].
    destruct (Z.leb_spec e now) as [Hle | Hlt]; cbn [orb].
    + rewrite (driver_pass_after_deadline timer e Hr Hm Hf He Hz a now Hnow Hle).
      cbn [fst snd].
      rewrite (run_drivers_idle l (completedTimer timer) eq_refl Hl).
      cbn [fst snd]. rewrite app_nil_r. now repeat split.
    + destruct (driver_pass_before_deadline timer e Hr Hm Hf He Hz a now
                  Hnow Hlt) as (Hnil & Hr' & Hm' & Hf' & He').
      rewrite Hnil. cbn [app].
      destruct (IH _ Hl Hr' Hm' Hf' He' Hz) as (Heff & Hstate).
      split; [|exact Hstate].
      rewrite Heff. unfold completionEffects. now rewrite act_name.
Qed.

Lemma driver_passes_complete_exactly_once_witness :
  snd (run raceTrace runningCountdown)
  = (if deadlineSeen 61000 raceTrace
     then completionEffects runningCountdown else [])
  /\ (deadlineSeen 61000 raceTrace = true ->
      isRunning (fst (run raceTrace runningCountdown)) = false
      /\ hasCompleted (fst (run raceTrace runningCountdown)) = true
      /\ time (fst (run raceTrace runningCountdown)) = 0).
Proof.
  apply (driver_passes_complete_exactly_once raceTrace runningCountdown 61000).
  - reflexivity.
  - reflexivity.
  - reflexivity.
  - reflexivity.
  - reflexivity.
  - discriminate.
Defined.

(** ** What a driver pass does to the display and to the time keeping *)

Lemma calculateCurrentTime_withTime (timer : Timer) (now now' : Z) :
  isRunning timer = true ->
  calculateCurrentTime (withTime timer (calculateCurrentTime timer now)) now'
  = calculateCurrentTime timer now'.
Proof.
  intros Hr. unfold calculateCurrentTime. cbn. rewrite Hr. cbn.
  destruct (mode timer); [reflexivity|].
  destruct (truthy (endTime timer)); reflexivity.
Qed.

(** X3: a driver pass that does not complete the timer leaves every later
    reading of [calculateCurrentTime] as it was: committing the display
    never disturbs the time keeping. *)
Theorem driver_pass_keeps_time_keeping (a : action) (timer : Timer) (now' : Z) :
  isDriver a = true -> snd (act a timer) = [] ->
  calculateCurrentTime (fst (act a timer)) now'
  = calculateCurrentTime timer now'.
Proof.
  intros Ha Hnil.
  destruct a as [now|now| | | | | | ]; try discriminate Ha;
    cbn [act fst snd] in *.
  - unfold updateTimers_timer in *.
    destruct (isRunning timer) eqn:Hr; cbn [negb] in *; [|reflexivity].
    destruct (countdownJustCompleted _ _); [discriminate Hnil|].
    destruct (_ >=? _); [|reflexivity].
    cbn [fst]. now apply calculateCurrentTime_withTime.
  - unfold handleVisibilityChange_timer in *.
    destruct (isRunning timer) eqn:Hr; cbn [negb] in *; [|reflexivity].
    destruct (countdownJustCompleted _ _); [discriminate Hnil|].
    cbn [fst]. now apply calculateCurrentTime_withTime.
Qed.

Lemma driver_pass_keeps_time_keeping_witness :
  calculateCurrentTime (fst (act (Tick 30000) runningCountdown)) 45000
  = calculateCurrentTime runningCountdown 45000.
Proof.
  apply (driver_pass_keeps_time_keeping (Tick 30000) runningCountdown 45000).
  - reflexivity.
  - reflexivity.
Defined.

Lemma countdownJustCompleted_zero (timer : Timer) (currentTime : Z) :
  countdownJustCompleted timer currentTime = true -> currentTime = 0.
Proof.
  unfold countdownJustCompleted. intros H.
  apply andb_true_iff in H. destruct H as (H & _).
  apply andb_true_iff in H. destruct H as (H & _).
  apply andb_true_iff in H. destruct H as (_ & H).
  now apply Z.eqb_eq.
Qed.

(** X4: after a pass of the update loop the committed display of a running
    timer is less than 10 ms away from the calculated time; after a pass of
    the visibility handler it is the calculated time. *)
Theorem driver_pass_display_accuracy (timer : Timer) (now : Z) :
  isRunning timer = true ->
  Z.abs (calculateCurrentTime timer now
         - time (fst (act (Tick now) timer))) < 10
  /\ time (fst (act (Visible now) timer)) = calculateCurrentTime timer now.
Proof.
  intros Hr. cbn [act fst snd].
  unfold updateTimers_timer, handleVisibilityChange_timer. rewrite Hr.
  cbn [negb].
  destruct (countdownJustCompleted timer (calculateCurrentTime timer now))
    eqn:Hz.
  - apply countdownJustCompleted_zero in Hz. rewrite Hz. cbn. split; lia.
  - split; [|reflexivity].
    destruct (Z.abs (calculateCurrentTime timer now - time timer) >=? 10)
      eqn:Hth; cbn [fst].
    + cbn. rewrite Z.sub_diag. cbn. lia.
    + rewrite Z.geb_leb in Hth. apply Z.leb_gt in Hth. lia.
Qed.

Lemma driver_pass_display_accuracy_witness :
  Z.abs (calculateCurrentTime runningCountdown 1005
         - time (fst (act (Tick 1005) runningCountdown))) < 10
  /\ time (fst (act (Visible 1005) runningCountdown))
     = calculateCurrentTime runningCountdown 1005.
Proof.
  apply (driver_pass_display_accuracy runningCountdown 1005). reflexivity.
Defined.

Lemma countdownJustCompleted_withTime (timer : Timer) (c c' : Z) :
  countdownJustCompleted (withTime timer c) c'
  = countdownJustCompleted timer c'.
Proof. reflexivity. Qed.

Lemma driver_pass_twice (a : action) (timer : Timer) :
  isDriver a = true ->
  act a (fst (act a timer)) = (fst (act a timer), []).
Proof.
  intros Ha.
  destruct a as [now|now| | | | | | ]; try discriminate Ha; cbn [act].
  - destruct (isRunning timer) eqn:Hr.
    + destruct (countdownJustCompleted timer (calculateCurrentTime timer now))
        eqn:Hz.
      * assert (E : updateTimers_timer now timer
                    = (completedTimer timer, true, completionEffects timer))
          by (unfold updateTimers_timer; now rewrite Hr, Hz).
        rewrite E. reflexivity.
      * destruct (Z.abs (calculateCurrentTime timer now - time timer) >=? 10)
          eqn:Hth.
        -- assert (E : updateTimers_timer now timer
                       = (withTime timer (calculateCurrentTime timer now),
                          true, []))
             by (unfold updateTimers_timer; now rewrite Hr, Hz, Hth).
           rewrite E. cbn [fst snd].
           unfold updateTimers_timer. cbn [isRunning withTime]. rewrite Hr.
           cbn [negb].
           rewrite (calculateCurrentTime_withTime timer now now Hr).
           rewrite countdownJustCompleted_withTime, Hz.
           cbn [time withTime]. rewrite Z.sub_diag. reflexivity.
        -- assert (E : updateTimers_timer now timer = (timer, false, []))
             by (unfold updateTimers_timer; now rewrite Hr, Hz, Hth).
           rewrite E. cbn [fst snd]. now rewrite E.
    + assert (E : updateTimers_timer now timer = (timer, false, []))
        by (unfold updateTimers_timer; now rewrite Hr).
      rewrite E. cbn [fst snd]. now rewrite E.
  - destruct (isRunning timer) eqn:Hr.
    + destruct (countdownJustCompleted timer (calculateCurrentTime timer now))
        eqn:Hz.
      * assert (E : handleVisibilityChange_timer now timer
                    = (completedTimer timer, completionEffects timer))
          by (unfold handleVisibilityChange_timer; now rewrite Hr, Hz).
        rewrite E. reflexivity.
      * assert (E : handleVisibilityChange_timer now timer
                    = (withTime timer (calculateCurrentTime timer now), []))
          by (unfold handleVisibilityChange_timer; now rewrite Hr, Hz).
        rewrite E. cbn [fst snd].
        unfold handleVisibilityChange_timer. cbn [isRunning withTime].
        rewrite Hr. cbn [negb].
        rewrite (calculateCurrentTime_withTime timer now now Hr).
        rewrite countdownJustCompleted_withTime, Hz. reflexivity.
    + assert (E : handleVisibilityChange_timer now timer = (timer, []))
        by (unfold handleVisibilityChange_timer; now rewrite Hr).
      rewrite E. cbn [fst snd]. now rewrite E.
Qed.

Lemma driver_map_twice (a : action) (prev : list Timer) :
  isDriver a = true ->
  map (fun t => fst (act a t)) (map (fun t => fst (act a t)) prev)
  = map (fun t => fst (act a t)) prev
  /\ concat (map (fun t => snd (act a t))
                 (map (fun t => fst (act a t)) prev)) = [].
Proof.
  intros Ha. rewrite !map_map. split.
  - apply map_ext. intros t. now rewrite (driver_pass_twice a t Ha).
  - induction prev as [|t rest IH]; [reflexivity|].
    cbn [map concat]. rewrite (driver_pass_twice a t Ha). cbn [snd app].
    exact IH.
Qed.

(** X5: a second pass of a driver over the collection at the same clock
    reading changes nothing and issues no effect: this holds for the update
    loop and for the visibility handler. *)
Theorem driver_passes_idempotent (now : Z) (prev : list Timer) :
  updateTimers now (fst (updateTimers now prev))
  = (fst (updateTimers now prev), [])
  /\ (let next :=
        fst (fst (handleVisibilityChange now visible hidden prev)) in
      handleVisibilityChange now visible hidden next = (next, [], visible)).
Proof.
  split.
  - destruct (updateTimers_per_timer now prev) as (Hfst & _).
    destruct (updateTimers_per_timer now (fst (updateTimers now prev)))
      as (Hfst2 & Hsnd2).
    rewrite (surjective_pairing
               (updateTimers now (fst (updateTimers now prev)))).
    rewrite Hfst2, Hsnd2, Hfst.
    destruct (driver_map_twice (Tick now) prev eq_refl) as (-> & ->).
    reflexivity.
  - intros next. subst next.
    rewrite (handleVisibilityChange_per_timer now prev). cbn [fst].
    rewrite handleVisibilityChange_per_timer.
    destruct (driver_map_twice (Visible now) prev eq_refl) as (-> & ->).
    reflexivity.
Qed.

(** X6: the collection returned by [updateTimers] is, timer by timer, what its
    callback returns, whether or not [hasChanges] was set, and the effects
    are those of the callbacks in the order of the collection; when no
    timer is running the collection is returned as it is, without an
    effect. *)
Theorem updateTimers_hasChanges_invisible (now : Z) (prev : list Timer) :
  fst (updateTimers now prev)
  = map (fun timer => fst (fst (updateTimers_timer now timer))) prev
  /\ snd (updateTimers now prev)
     = concat (map (fun timer => snd (updateTimers_timer now timer)) prev)
  /\ (Forall (fun timer => isRunning timer = false) prev ->
      updateTimers now prev = (prev, [])).
Proof.
  destruct (updateTimers_per_timer now prev) as (Hfst & Hsnd).
  split; [exact Hfst|]. split; [exact Hsnd|].
  intros Hidle.
  rewrite (surjective_pairing (updateTimers now prev)), Hfst, Hsnd.
  clear Hfst Hsnd.
  assert (Hno : forall t, isRunning t = false -> act (Tick now) t = (t, []))
    by (intros t Ht; cbn [act]; unfold updateTimers_timer; now rewrite Ht).
  f_equal.
  - induction Hidle as [|t rest Ht _ IH]; [reflexivity|].
    cbn [map]. now rewrite (Hno t Ht), IH.
  - induction Hidle as [|t rest Ht _ IH]; [reflexivity|].
    cbn [map concat]. now rewrite (Hno t Ht), IH.
Qed.

Lemma updateTimers_hasChanges_invisible_witness :
  updateTimers 5000 [secondTimer; idleCountdown]
  = ([secondTimer; idleCountdown], []).
Proof.
  apply (updateTimers_hasChanges_invisible 5000 [secondTimer; idleCountdown]).
  repeat constructor.
Defined.

(** ** The completion flag *)

Lemma completed_ok_running (timer : Timer) :
  completed_ok timer = true -> isRunning timer = true ->
  hasCompleted timer = false.
Proof.
  unfold completed_ok. intros Hok Hr.
  destruct (hasCompleted timer); [|reflexivity].
  rewrite Hr in Hok. discriminate Hok.
Qed.

Lemma completed_ok_cleared (timer : Timer) :
  hasCompleted timer = false -> completed_ok timer = true.
Proof. unfold completed_ok. now intros ->. Qed.

Lemma act_completed_ok (a : action) (timer : Timer) :
  completed_ok timer = true -> completed_ok (fst (act a timer)) = true.
Proof.
  intros Hok.
  destruct a as [now|now|now| | | |mins|ms]; cbn [act fst snd];
    try (apply completed_ok_cleared; reflexivity).
  - unfold updateTimers_timer.
    destruct (isRunning timer) eqn:Hr; cbn [negb]; [|exact Hok].
    destruct (countdownJustCompleted _ _) eqn:Hz; cbn [fst].
    + unfold countdownJustCompleted in Hz. unfold completed_ok. cbn.
      destruct (Mode_eqb (mode timer) countdown); [reflexivity|].
      discriminate Hz.
    + destruct (_ >=? _); [|exact Hok].
      apply completed_ok_cleared. cbn.
      now apply completed_ok_running.
  - unfold handleVisibilityChange_timer.
    destruct (isRunning timer) eqn:Hr; cbn [negb]; [|exact Hok].
    destruct (countdownJustCompleted _ _) eqn:Hz; cbn [fst].
    + unfold countdownJustCompleted in Hz. unfold completed_ok. cbn.
      destruct (Mode_eqb (mode timer) countdown); [reflexivity|].
      discriminate Hz.
    + apply completed_ok_cleared. cbn. now apply completed_ok_running.
  - unfold toggleTimer_timer.
    destruct (isRunning timer) eqn:Hr.
    + apply completed_ok_cleared. cbn. now apply completed_ok_running.
    + destruct (_ && _); [exact Hok|].
      apply completed_ok_cleared. reflexivity.
Qed.

Lemma run_completed_ok (l : list action) (timer : Timer) :
  completed_ok timer = true -> completed_ok (fst (run l timer)) = true.
Proof.
  revert timer. induction l as [|a l IH]; intros timer Hok; [exact Hok|].
  cbn [run fst]. apply IH. now apply act_completed_ok.
Qed.

(** X8: whatever sequence of handler invocations and driver passes a timer
    goes through, [hasCompleted] is set only on a countdown that is not
    running and shows 0; pressing START on it is rejected, so a completed
    countdown has to be reset (or given a preset or target) first. *)
Theorem completed_timer_is_stopped_countdown
    (l : list action) (timer : Timer) :
  completed_ok timer = true ->
  hasCompleted (fst (run l timer)) = true ->
  isRunning (fst (run l timer)) = false
  /\ mode (fst (run l timer)) = countdown
  /\ time (fst (run l timer)) = 0
  /\ (forall now, startRejected now (fst (run l timer))).
Proof.
  intros Hok Hc.
  pose proof (run_completed_ok l timer Hok) as Hok'.
  unfold completed_ok in Hok'. rewrite Hc in Hok'.
  apply andb_true_iff in Hok'. destruct Hok' as (Hok' & Hz).
  apply andb_true_iff in Hok'. destruct Hok' as (Hr & Hm).
  apply negb_true_iff in Hr. apply Z.eqb_eq in Hz.
  assert (Hmode : mode (fst (run l timer)) = countdown)
    by (destruct (mode (fst (run l timer))); [discriminate Hm | reflexivity]).
  repeat split; try assumption.
  intros now. apply start_guard_rejects; [exact Hr|].
  rewrite Hmode, Hz. reflexivity.
Qed.

Lemma completed_timer_is_stopped_countdown_witness :
  isRunning (fst (run [Toggle 1000; Tick 61000; Visible 62000] idleCountdown))
  = false
  /\ mode (fst (run [Toggle 1000; Tick 61000; Visible 62000] idleCountdown))
     = countdown
  /\ time (fst (run [Toggle 1000; Tick 61000; Visible 62000] idleCountdown))
     = 0
  /\ (forall now,
         startRejected now
           (fst (run [Toggle 1000; Tick 61000; Visible 62000] idleCountdown))).
Proof.
  apply (completed_timer_is_stopped_countdown
           [Toggle 1000; Tick 61000; Visible 62000] idleCountdown).
  - reflexivity.
  - reflexivity.
Defined.

(** ** Reset and mode toggle *)

Lemma act_id (a : action) (timer : Timer) :
  id (fst (act a timer)) = id timer.
Proof.
  destruct a as [now|now|now| | | |mins|ms]; cbn [act fst snd];
    try reflexivity.
  - unfold updateTimers_timer.
    destruct (negb (isRunning timer)); [reflexivity|].
    destruct (countdownJustCompleted _ _); [reflexivity|].
    destruct (_ >=? _); reflexivity.
  - unfold handleVisibilityChange_timer.
    destruct (negb (isRunning timer)); [reflexivity|].
    destruct (countdownJustCompleted _ _); reflexivity.
  - unfold toggleTimer_timer.
    destruct (isRunning timer); [reflexivity|].
    destruct (_ && _); reflexivity.
Qed.

Lemma act_keepsSetup (a : action) (timer : Timer) :
  keepsSetup a = true ->
  mode (fst (act a timer)) = mode timer
  /\ targetDuration (fst (act a timer)) = targetDuration timer.
Proof.
  intros Hk.
  destruct a as [now|now|now| | | |mins|ms]; try discriminate Hk;
    cbn [act fst snd]; try (split; reflexivity).
  - unfold updateTimers_timer.
    destruct (negb (isRunning timer)); [now split|].
    destruct (countdownJustCompleted _ _); [now split|].
    destruct (_ >=? _); now split.
  - unfold handleVisibilityChange_timer.
    destruct (negb (isRunning timer)); [now split|].
    destruct (countdownJustCompleted _ _); now split.
  - unfold toggleTimer_timer.
    destruct (isRunning timer); [now split|].
    destruct (_ && _); now split.
Qed.

(** X9: RESET gives the same timer whatever starts, pauses, zeroings, resets
    and driver passes came before it: the idle timer of the current mode,
    showing the target duration for a countdown and 0 for a stopwatch. *)
Theorem reset_forgets_the_run (l : list action) (timer : Timer) :
  forallb keepsSetup l = true ->
  resetTimer_timer (fst (run l timer)) = resetTimer_timer timer.
Proof.
  revert timer. induction l as [|a l IH]; intros timer Hl; [reflexivity|].
  cbn in Hl. apply andb_true_iff in Hl. destruct Hl as (Ha & Hl).
  cbn [run fst]. rewrite (IH _ Hl).
  destruct (act_keepsSetup a timer Ha) as (Hm & Ht).
  unfold resetTimer_timer. now rewrite act_id, act_name, Hm, Ht.
Qed.

Lemma reset_forgets_the_run_witness :
  resetTimer_timer
    (fst (run [Toggle 1000; Tick 2000; Toggle 31000; Zero] idleCountdown))
  = resetTimer_timer idleCountdown.
Proof.
  apply (reset_forgets_the_run
           [Toggle 1000; Tick 2000; Toggle 31000; Zero] idleCountdown).
  reflexivity.
Defined.

(** X10: toggling the mode of a timer twice is resetting it: the collection
    after two [toggleMode] on an id is the collection after [resetTimer]
    on that id. *)
Theorem toggleMode_twice_is_reset (target : string) (prev : list Timer) :
  toggleMode target (toggleMode target prev) = resetTimer target prev.
Proof.
  unfold toggleMode, resetTimer. rewrite map_map. apply map_ext.
  intros timer. destruct (String.eqb (id timer) target) eqn:Hid; cbn [negb].
  - cbn [id toggleMode_timer]. rewrite Hid. cbn [negb].
    unfold toggleMode_timer, resetTimer_timer. cbn.
    destruct (mode timer); reflexivity.
  - rewrite Hid. reflexivity.
Qed.

(** ** Pause and resume *)

Lemma pause_fields (now : Z) (timer : Timer) :
  isRunning timer = true ->
  isRunning (fst (toggleTimer_timer now timer)) = false
  /\ time (fst (toggleTimer_timer now timer))
     = calculateCurrentTime timer now
  /\ mode (fst (toggleTimer_timer now timer)) = mode timer
  /\ accumulatedTime (fst (toggleTimer_timer now timer))
     = match mode timer with
       | stopwatch => calculateCurrentTime timer now
       | countdown => 0
       end
  /\ startedAt (fst (toggleTimer_timer now timer)) = None
  /\ endTime (fst (toggleTimer_timer now timer)) = endTime timer
  /\ snd (toggleTimer_timer now timer) = [].
Proof.
  intros Hr. unfold toggleTimer_timer. rewrite Hr. cbn.
  repeat split; reflexivity.
Qed.

(** X11: a running stopwatch started at a nonzero reading [s], paused at [p] and
    resumed at a nonzero reading [r], reads at [q] what it had banked plus
    the two stretches it ran: the time between [p] and [r] is not
    counted. *)
Theorem stopwatch_pause_resume (timer : Timer) (s p r q : Z) :
  isRunning timer = true -> mode timer = stopwatch ->
  startedAt timer = Some s -> s <> 0 -> r <> 0 ->
  time (fst (run [Toggle p] timer)) = accumulatedTime timer + (p - s)
  /\ calculateCurrentTime (fst (run [Toggle p; Toggle r] timer)) q
     = accumulatedTime timer + (p - s) + (q - r).
Proof.
  intros Hr Hm Hs Hsz Hrz.
  pose proof (calculateCurrentTime_stopwatch timer s p Hr Hm Hs Hsz) as Hc.
  destruct (pause_fields p timer Hr) as (Hr1 & Ht1 & Hm1 & Ha1 & _).
  rewrite Hm in Hm1, Ha1. rewrite Hc in Ht1, Ha1.
  cbn [run act fst snd]. split; [exact Ht1|].
  set (paused := fst (toggleTimer_timer p timer)) in *.
  assert (Hg : Mode_eqb (mode paused) countdown && (time paused =? 0) = false)
    by now rewrite Hm1.
  destruct (start_guard_accepts r paused Hr1 Hg)
    as (_ & Hr2 & _ & Hs2 & _ & _ & Ha2 & _).
  rewrite (calculateCurrentTime_stopwatch _ r q Hr2); try assumption.
  - rewrite Ha2, Ha1. reflexivity.
  - unfold toggleTimer_timer. rewrite Hr1, Hg. cbn. exact Hm1.
Qed.

Lemma stopwatch_pause_resume_witness :
  time (fst (run [Toggle 1500] (fst (run [Toggle 1000] initialTimer))))
  = accumulatedTime (fst (run [Toggle 1000] initialTimer)) + (1500 - 1000)
  /\ calculateCurrentTime
       (fst (run [Toggle 1500; Toggle 1700]
                 (fst (run [Toggle 1000] initialTimer)))) 1900
     = accumulatedTime (fst (run [Toggle 1000] initialTimer))
       + (1500 - 1000) + (1900 - 1700).
Proof.
  apply (stopwatch_pause_resume
           (fst (run [Toggle 1000] initialTimer)) 1000 1500 1700 1900).
  - reflexivity.
  - reflexivity.
  - reflexivity.
  - discriminate.
  - discriminate.
Defined.

(** X12: a running countdown with a nonzero [endTime = e], paused at [p] before
    [e] and resumed at [r], has its deadline moved to [r + (e - p)]: the
    time remaining at the pause is what remains at the resume. *)
Theorem countdown_pause_resume (timer : Timer) (e p r q : Z) :
  isRunning timer = true -> mode timer = countdown ->
  endTime timer = Some e -> e <> 0 -> p < e -> r + (e - p) <> 0 ->
  time (fst (run [Toggle p] timer)) = e - p
  /\ endTime (fst (run [Toggle p; Toggle r] timer)) = Some (r + (e - p))
  /\ isRunning (fst (run [Toggle p; Toggle r] timer)) = true
  /\ calculateCurrentTime (fst (run [Toggle p; Toggle r] timer)) q
     = Z.max 0 (e - p - (q - r)).
Proof.
  intros Hr Hm He Hez Hlt Hnz.
  pose proof (calculateCurrentTime_countdown timer e p Hr Hm He Hez) as Hc.
  assert (Hrem : calculateCurrentTime timer p = e - p) by lia.
  destruct (pause_fields p timer Hr) as (Hr1 & Ht1 & Hm1 & _).
  rewrite Hm in Hm1. rewrite Hrem in Ht1.
  cbn [run act fst snd]. split; [exact Ht1|].
  set (paused := fst (toggleTimer_timer p timer)) in *.
  assert (Hg : Mode_eqb (mode paused) countdown && (time paused =? 0) = false).
  { rewrite Hm1, Ht1. cbn. apply Z.eqb_neq. lia. }
  destruct (start_guard_accepts r paused Hr1 Hg)
    as (_ & Hr2 & _ & _ & _ & He2 & _).
  rewrite Hm1, Ht1 in He2.
  split; [exact He2|]. split; [exact Hr2|].
  rewrite (calculateCurrentTime_countdown _ (r + (e - p)) q Hr2);
    try assumption.
  - f_equal. lia.
  - unfold toggleTimer_timer. rewrite Hr1, Hg. cbn. exact Hm1.
Qed.

Lemma countdown_pause_resume_witness :
  time (fst (run [Toggle 31000] runningCountdown)) = 61000 - 31000
  /\ endTime (fst (run [Toggle 31000; Toggle 90000] runningCountdown))
     = Some (90000 + (61000 - 31000))
  /\ isRunning (fst (run [Toggle 31000; Toggle 90000] runningCountdown))
     = true
  /\ calculateCurrentTime
       (fst (run [Toggle 31000; Toggle 90000] runningCountdown)) 100000
     = Z.max 0 (61000 - 31000 - (100000 - 90000)).
Proof.
  apply (countdown_pause_resume runningCountdown 61000 31000 90000 100000).
  - reflexivity.
  - reflexivity.
  - reflexivity.
  - discriminate.
  - reflexivity.
  - discriminate.
Defined.

(** ** Durations are never negative under a clock that does not go back *)

Lemma calculateCurrentTime_nonneg (clock now : Z) (timer : Timer) :
  durations_ok clock timer -> clock <= now ->
  0 <= calculateCurrentTime timer now.
Proof.
  intros (Ht & Ha & _ & Hs) Hle. unfold calculateCurrentTime.
  destruct (negb (isRunning timer)); [exact Ht|].
  destruct (mode timer).
  - destruct (startedAt timer) as [s|]; cbn; [|exact Ha].
    destruct (s =? 0); cbn; [exact Ha|].
    specialize (Hs s eq_refl). lia.
  - destruct (truthy (endTime timer)); [apply Z.le_max_l | exact Ht].
Qed.

Lemma durations_ok_later (clock now : Z) (timer : Timer) :
  clock <= now -> durations_ok clock timer -> durations_ok now timer.
Proof.
  intros Hle (Ht & Ha & Htd & Hs). repeat split; try assumption.
  intros s Hsome. specialize (Hs s Hsome). lia.
Qed.

Lemma act_durations_ok (clock : Z) (a : action) (timer : Timer) :
  nonnegInput a = true ->
  match reading a with Some now => clock <= now | None => True end ->
  durations_ok clock timer ->
  durations_ok (match reading a with Some now => now | None => clock end)
               (fst (act a timer)).
Proof.
  intros Hin Hclock Hok.
  destruct a as [now|now|now| | | |mins|ms]; cbn [reading] in *;
    cbn [act fst snd].
  - pose proof (calculateCurrentTime_nonneg clock now timer Hok Hclock) as Hc.
    apply (durations_ok_later clock now _ Hclock) in Hok.
    destruct Hok as (Ht & Ha & Htd & Hs).
    unfold updateTimers_timer.
    destruct (negb (isRunning timer)); [now repeat split|].
    destruct (countdownJustCompleted _ _); cbn [fst].
    + repeat split; cbn; try assumption; try lia. discriminate.
    + destruct (_ >=? _); cbn [fst]; now repeat split.
  - pose proof (calculateCurrentTime_nonneg clock now timer Hok Hclock) as Hc.
    apply (durations_ok_later clock now _ Hclock) in Hok.
    destruct Hok as (Ht & Ha & Htd & Hs).
    unfold handleVisibilityChange_timer.
    destruct (negb (isRunning timer)); [now repeat split|].
    destruct (countdownJustCompleted _ _); cbn [fst].
    + repeat split; cbn; try assumption; try lia. discriminate.
    + now repeat split.
  - pose proof (calculateCurrentTime_nonneg clock now timer Hok Hclock) as Hc.
    apply (durations_ok_later clock now _ Hclock) in Hok.
    destruct Hok as (Ht & Ha & Htd & Hs).
    unfold toggleTimer_timer.
    destruct (isRunning timer); cbn [fst].
    + repeat split; cbn; try assumption; try discriminate.
      destruct (mode timer); [exact Hc | lia].
    + destruct (_ && _); cbn [fst]; [now repeat split|].
      repeat split; cbn; try assumption.
      intros s [= <-]. lia.
  - destruct Hok as (Ht & Ha & Htd & Hs).
    repeat split; cbn; try assumption; try lia; try discriminate.
    destruct (mode timer); [lia | exact Htd].
  - destruct Hok as (Ht & Ha & Htd & Hs).
    repeat split; cbn; try assumption; try lia; discriminate.
  - destruct Hok as (Ht & Ha & Htd & Hs).
    repeat split; cbn; try assumption; try lia; try discriminate.
    destruct (mode timer); [exact Htd | lia].
  - destruct Hok as (Ht & Ha & Htd & Hs). cbn in Hin.
    apply Z.leb_le in Hin.
    repeat split; cbn; try lia; discriminate.
  - destruct Hok as (Ht & Ha & Htd & Hs). cbn in Hin.
    apply Z.leb_le in Hin.
    repeat split; cbn; try lia; try discriminate.
    destruct (mode timer); [exact Htd | exact Hin].
Qed.

(** X13: when the clock readings of a sequence of invocations never go back and
    the durations handed to [setTargetDuration] and [setPreset] are not
    negative, the displayed time, the banked time and the target duration
    are never negative, and neither is what [calculateCurrentTime] returns
    at any later reading. *)
Theorem durations_never_negative
    (clock : Z) (l : list action) (timer : Timer) :
  wellTimed clock l = true -> durations_ok clock timer ->
  0 <= time (fst (run l timer))
  /\ 0 <= accumulatedTime (fst (run l timer))
  /\ 0 <= targetDuration (fst (run l timer))
  /\ (forall now, clockAfter clock l <= now ->
        0 <= calculateCurrentTime (fst (run l timer)) now).
Proof.
  intros Hwt Hok.
  assert (Hfinal : durations_ok (clockAfter clock l) (fst (run l timer))).
  { revert clock timer Hwt Hok.
    induction l as [|a l IH]; intros clock timer Hwt Hok; [exact Hok|].
    cbn in Hwt. apply andb_true_iff in Hwt. destruct Hwt as (Hin & Hwt).
    cbn [run fst clockAfter].
    destruct (reading a) as [now|] eqn:Hread.
    - apply andb_true_iff in Hwt. destruct Hwt as (Hle & Hwt).
      apply Z.leb_le in Hle. apply IH; [exact Hwt|].
      pose proof (act_durations_ok clock a timer Hin) as Hstep.
      rewrite Hread in Hstep. now apply Hstep.
    - apply IH; [exact Hwt|].
      pose proof (act_durations_ok clock a timer Hin) as Hstep.
      rewrite Hread in Hstep. now apply Hstep. }
  destruct Hfinal as (Ht & Ha & Htd & Hs).
  repeat split; try assumption.
  intros now Hle.
  apply (calculateCurrentTime_nonneg (clockAfter clock l)); [|exact Hle].
  now repeat split.
Qed.

Lemma durations_never_negative_witness :
  0 <= time (fst (run [ToggleMode; SetTargetDuration 1; Toggle 1000;
                       Tick 30000; Toggle 31000] initialTimer))
  /\ 0 <= accumulatedTime
            (fst (run [ToggleMode; SetTargetDuration 1; Toggle 1000;
                       Tick 30000; Toggle 31000] initialTimer))
  /\ 0 <= targetDuration
            (fst (run [ToggleMode; SetTargetDuration 1; Toggle 1000;
                       Tick 30000; Toggle 31000] initialTimer))
  /\ (forall now,
         clockAfter 0 [ToggleMode; SetTargetDuration 1; Toggle 1000;
                       Tick 30000; Toggle 31000] <= now ->
         0 <= calculateCurrentTime
                (fst (run [ToggleMode; SetTargetDuration 1; Toggle 1000;
                           Tick 30000; Toggle 31000] initialTimer)) now).
Proof.
  apply (durations_never_negative 0
           [ToggleMode; SetTargetDuration 1; Toggle 1000;
            Tick 30000; Toggle 31000] initialTimer).
  - reflexivity.
  - repeat split; cbn; try lia. discriminate.
Defined.

(** ** The handlers on the collection *)

(** Each per-id handler applies its per-timer update to the timers that
    carry the id. *)
Lemma handlers_applyTo (target : string) (prev : list Timer) :
  (forall now, fst (toggleTimer target now prev)
               = applyTo target (Toggle now) prev)
  /\ resetTimer target prev = applyTo target Reset prev
  /\ zeroTimer target prev = applyTo target Zero prev
  /\ toggleMode target prev = applyTo target ToggleMode prev
  /\ (forall mins, setTargetDuration target mins prev
                   = applyTo target (SetTargetDuration mins) prev)
  /\ (forall ms, setPreset target ms prev
                 = applyTo target (SetPreset ms) prev).
Proof.
  unfold toggleTimer, resetTimer, zeroTimer, toggleMode, setTargetDuration,
    setPreset, applyTo. cbn [fst].
  repeat split; intros; rewrite ?map_map; apply map_ext; intros timer;
    destruct (String.eqb (id timer) target); reflexivity.
Qed.

Lemma applyTo_missing (target : string) (a : action) (prev : list Timer) :
  (forall timer, In timer prev -> id timer <> target) ->
  applyTo target a prev = prev.
Proof.
  intros Hall. unfold applyTo. rewrite <- (map_id prev) at 2.
  apply map_ext_in. intros timer Hin.
  apply Hall in Hin. apply String.eqb_neq in Hin. now rewrite Hin.
Qed.

Lemma toggleTimer_missing_effects (target : string) (now : Z)
    (prev : list Timer) :
  (forall timer, In timer prev -> id timer <> target) ->
  snd (toggleTimer target now prev) = [].
Proof.
  unfold toggleTimer. cbn [snd]. rewrite map_map.
  induction prev as [|timer rest IH]; intros Hall; [reflexivity|].
  cbn [map concat].
  assert (Hne : id timer <> target) by (apply Hall; now left).
  apply String.eqb_neq in Hne. rewrite Hne. cbn [negb snd app].
  apply IH. intros t Ht. apply Hall. now right.
Qed.

(** X14: an id that no timer of the collection carries: every per-id handler
    returns the collection as it was, [toggleTimer] shows no toast, and
    [deleteTimer] removes nothing. *)
Theorem handlers_missing_id (target : string) (prev : list Timer) :
  (forall timer, In timer prev -> id timer <> target) ->
  (forall now, toggleTimer target now prev = (prev, []))
  /\ resetTimer target prev = prev
  /\ zeroTimer target prev = prev
  /\ toggleMode target prev = prev
  /\ (forall mins, setTargetDuration target mins prev = prev)
  /\ (forall ms, setPreset target ms prev = prev)
  /\ deleteTimer target prev = prev.
Proof.
  intros Hall.
  destruct (handlers_applyTo target prev)
    as (Htog & Hres & Hzero & Hmode & Hset & Hpre).
  split.
  { intros now. rewrite (surjective_pairing (toggleTimer target now prev)).
    rewrite Htog, (applyTo_missing target _ prev Hall).
    now rewrite (toggleTimer_missing_effects target now prev Hall). }
  rewrite Hres, Hzero, Hmode.
  repeat split; intros; rewrite ?Hset, ?Hpre;
    try (now apply applyTo_missing).
  now apply deleteTimer_not_found.
Qed.

Lemma handlers_missing_id_witness :
  (forall now, toggleTimer "7" now twoTimers = (twoTimers, []))
  /\ resetTimer "7" twoTimers = twoTimers
  /\ zeroTimer "7" twoTimers = twoTimers
  /\ toggleMode "7" twoTimers = twoTimers
  /\ (forall mins, setTargetDuration "7" mins twoTimers = twoTimers)
  /\ (forall ms, setPreset "7" ms twoTimers = twoTimers)
  /\ deleteTimer "7" twoTimers = twoTimers.
Proof.
  apply (handlers_missing_id "7" twoTimers).
  intros timer [<- | [<- | []]]; cbn; discriminate.
Defined.

Lemma applyTo_commute (target1 target2 : string) (a b : action)
    (prev : list Timer) :
  target1 <> target2 ->
  applyTo target1 a (applyTo target2 b prev)
  = applyTo target2 b (applyTo target1 a prev).
Proof.
  intros Hne. unfold applyTo. rewrite !map_map. apply map_ext.
  intros timer.
  destruct (String.eqb (id timer) target1) eqn:H1;
    destruct (String.eqb (id timer) target2) eqn:H2.
  - apply String.eqb_eq in H1. apply String.eqb_eq in H2. congruence.
  - cbv beta iota. rewrite ?act_id, ?H1, ?H2. reflexivity.
  - cbv beta iota. rewrite ?act_id, ?H1, ?H2. reflexivity.
  - cbv beta iota. rewrite ?H1, ?H2. reflexivity.
Qed.

(** X15: handlers aimed at two different ids commute: the collection does not
    depend on the order in which a toggle, reset, zero, mode toggle, target
    or preset on one timer and such an operation on another timer are
    applied. *)
Theorem handlers_on_distinct_ids_commute
    (target1 target2 : string) (prev : list Timer) :
  target1 <> target2 ->
  (forall a b,
      applyTo target1 a (applyTo target2 b prev)
      = applyTo target2 b (applyTo target1 a prev))
  /\ (forall now,
         fst (toggleTimer target1 now (resetTimer target2 prev))
         = resetTimer target2 (fst (toggleTimer target1 now prev)))
  /\ (forall now ms,
         fst (toggleTimer target1 now (setPreset target2 ms prev))
         = setPreset target2 ms (fst (toggleTimer target1 now prev)))
  /\ (forall mins,
         setTargetDuration target1 mins (toggleMode target2 prev)
         = toggleMode target2 (setTargetDuration target1 mins prev))
  /\ zeroTimer target1 (resetTimer target2 prev)
     = resetTimer target2 (zeroTimer target1 prev).
Proof.
  intros Hne.
  assert (Hgen : forall a b,
             applyTo target1 a (applyTo target2 b prev)
             = applyTo target2 b (applyTo target1 a prev))
    by (intros a b; now apply applyTo_commute).
  split; [exact Hgen|].
  split; [|split; [|split]]; intros.
  - destruct (handlers_applyTo target1 (resetTimer target2 prev)) as (-> & _).
    destruct (handlers_applyTo target1 prev) as (-> & _).
    destruct (handlers_applyTo target2 prev) as (_ & -> & _).
    destruct (handlers_applyTo target2 (applyTo target1 (Toggle now) prev))
      as (_ & -> & _).
    apply Hgen.
  - destruct (handlers_applyTo target1 (setPreset target2 ms prev))
      as (-> & _).
    destruct (handlers_applyTo target1 prev) as (-> & _).
    destruct (handlers_applyTo target2 prev) as (_ & _ & _ & _ & _ & ->).
    destruct (handlers_applyTo target2 (applyTo target1 (Toggle now) prev))
      as (_ & _ & _ & _ & _ & ->).
    apply Hgen.
  - destruct (handlers_applyTo target1 (toggleMode target2 prev))
      as (_ & _ & _ & _ & -> & _).
    destruct (handlers_applyTo target1 prev) as (_ & _ & _ & _ & -> & _).
    destruct (handlers_applyTo target2 prev) as (_ & _ & _ & -> & _).
    destruct (handlers_applyTo target2
                (applyTo target1 (SetTargetDuration mins) prev))
      as (_ & _ & _ & -> & _).
    apply Hgen.
  - destruct (handlers_applyTo target1 (resetTimer target2 prev))
      as (_ & _ & -> & _).
    destruct (handlers_applyTo target1 prev) as (_ & _ & -> & _).
    destruct (handlers_applyTo target2 prev) as (_ & -> & _).
    destruct (handlers_applyTo target2 (applyTo target1 Zero prev))
      as (_ & -> & _).
    apply Hgen.
Qed.

Lemma handlers_on_distinct_ids_commute_witness :
  zeroTimer "1" (resetTimer "2" twoTimers)
  = resetTimer "2" (zeroTimer "1" twoTimers).
Proof.
  apply (handlers_on_distinct_ids_commute "1" "2" twoTimers).
  discriminate.
Defined.

(** ** The drivers on the collection *)

Lemma driver_fields (a : action) (timer : Timer) :
  isDriver a = true ->
  id (fst (act a timer)) = id timer
  /\ name (fst (act a timer)) = name timer
  /\ mode (fst (act a timer)) = mode timer
  /\ targetDuration (fst (act a timer)) = targetDuration timer
  /\ accumulatedTime (fst (act a timer)) = accumulatedTime timer
  /\ (isRunning timer = false -> act a timer = (timer, [])).
Proof.
  intros Ha.
  destruct a as [now|now| | | | | | ]; try discriminate Ha;
    cbn [act fst snd].
  - unfold updateTimers_timer.
    destruct (isRunning timer); cbn [negb].
    + destruct (countdownJustCompleted _ _);
        [|destruct (_ >=? _)]; cbn; repeat split; discriminate.
    + cbn. repeat split; reflexivity.
  - unfold handleVisibilityChange_timer.
    destruct (isRunning timer); cbn [negb].
    + destruct (countdownJustCompleted _ _); cbn; repeat split; discriminate.
    + cbn. repeat split; reflexivity.
Qed.

Lemma completions_app (es es' : list effect) :
  completions (es ++ es') = (completions es + completions es')%nat.
Proof.
  unfold completions. now rewrite filter_app, length_app.
Qed.

Lemma driver_running_count (a : action) (timer : Timer) :
  isDriver a = true ->
  (if isRunning timer then 1 else 0)%nat
  = ((if isRunning (fst (act a timer)) then 1 else 0)
     + completions (snd (act a timer)))%nat.
Proof.
  intros Ha.
  destruct a as [now|now| | | | | | ]; try discriminate Ha;
    cbn [act fst snd].
  - unfold updateTimers_timer.
    destruct (isRunning timer) eqn:Hr; cbn [negb].
    + destruct (countdownJustCompleted _ _);
        [|destruct (_ >=? _)]; cbn; rewrite ?Hr; reflexivity.
    + cbn. rewrite Hr. reflexivity.
  - unfold handleVisibilityChange_timer.
    destruct (isRunning timer) eqn:Hr; cbn [negb].
    + destruct (countdownJustCompleted _ _); cbn; rewrite ?Hr; reflexivity.
    + cbn. rewrite Hr. reflexivity.
Qed.

Lemma driver_pass_collection (a : action) (prev : list Timer) :
  isDriver a = true ->
  let next := map (fun t => fst (act a t)) prev in
  let effects := concat (map (fun t => snd (act a t)) prev) in
  map id next = map id prev
  /\ map name next = map name prev
  /\ map mode next = map mode prev
  /\ map targetDuration next = map targetDuration prev
  /\ (forall i timer, nth_error prev i = Some timer ->
        isRunning timer = false -> nth_error next i = Some timer)
  /\ runningCount prev = (runningCount next + completions effects)%nat.
Proof.
  intros Ha next effects. subst next effects.
  rewrite !map_map.
  split; [apply map_ext; intros t; apply (driver_fields a t Ha)|].
  split; [apply map_ext; intros t; apply (driver_fields a t Ha)|].
  split; [apply map_ext; intros t; apply (driver_fields a t Ha)|].
  split; [apply map_ext; intros t; apply (driver_fields a t Ha)|].
  split.
  - intros i timer Hi Hr. rewrite nth_error_map, Hi. cbn.
    destruct (driver_fields a timer Ha) as (_ & _ & _ & _ & _ & Hidle).
    now rewrite (Hidle Hr).
  - unfold runningCount.
    induction prev as [|t rest IH]; [reflexivity|].
    cbn [map concat filter]. rewrite completions_app.
    pose proof (driver_running_count a t Ha) as Hone.
    destruct (isRunning t); destruct (isRunning (fst (act a t)));
      cbn [length] in *; lia.
Qed.

(** X7: a pass of either driver over the collection keeps the timers in place
    with their id, name, mode and target duration, returns every timer that
    is not running as it was, and lowers the number of running timers by
    exactly the number of completion notifications it issues. *)
Theorem drivers_on_collection (now : Z) (prev : list Timer) :
  (let next := fst (updateTimers now prev) in
   map id next = map id prev /\ map name next = map name prev
   /\ map mode next = map mode prev
   /\ map targetDuration next = map targetDuration prev
   /\ (forall i timer, nth_error prev i = Some timer ->
         isRunning timer = false -> nth_error next i = Some timer)
   /\ runningCount prev
      = (runningCount next
         + completions (snd (updateTimers now prev)))%nat)
  /\ (let r := handleVisibilityChange now visible hidden prev in
      let next := fst (fst r) in
      map id next = map id prev /\ map name next = map name prev
      /\ map mode next = map mode prev
      /\ map targetDuration next = map targetDuration prev
      /\ (forall i timer, nth_error prev i = Some timer ->
            isRunning timer = false -> nth_error next i = Some timer)
      /\ runningCount prev
         = (runningCount next + completions (snd (fst r)))%nat).
Proof.
  split.
  - destruct (updateTimers_per_timer now prev) as (-> & ->).
    exact (driver_pass_collection (Tick now) prev eq_refl).
  - rewrite handleVisibilityChange_per_timer. cbn [fst snd].
    exact (driver_pass_collection (Visible now) prev eq_refl).
Qed.

(** ** Unique ids and deletion *)

Lemma deleteTimer_ids (target : string) (prev : list Timer) :
  map id (deleteTimer target prev)
  = filter (fun i => negb (String.eqb i target)) (map id prev).
Proof.
  unfold deleteTimer.
  induction prev as [|t rest IH]; [reflexivity|].
  cbn. destruct (String.eqb (id t) target); cbn; now rewrite IH.
Qed.

Lemma deleteTimer_unique_length (target : string) (prev : list Timer) :
  NoDup (map id prev) -> In target (map id prev) ->
  S (length (deleteTimer target prev)) = length prev.
Proof.
  induction prev as [|t rest IH]; intros Hnd Hin; [destruct Hin|].
  cbn [map] in Hnd. apply NoDup_cons_iff in Hnd. destruct Hnd as (Hfresh & Hnd).
  assert (Hstep : deleteTimer target (t :: rest)
                  = if String.eqb (id t) target
                    then deleteTimer target rest
                    else t :: deleteTimer target rest).
  { unfold deleteTimer. cbn. now destruct (String.eqb (id t) target). }
  rewrite Hstep. destruct (String.eqb (id t) target) eqn:Hid.
  - apply String.eqb_eq in Hid. subst target.
    rewrite deleteTimer_not_found; [reflexivity|].
    intros t' Hin' Heq. apply Hfresh. rewrite <- Heq. now apply in_map.
  - cbn [length]. f_equal. apply IH; [exact Hnd|].
    destruct Hin as [Heq | Hin]; [|exact Hin].
    apply String.eqb_neq in Hid. contradiction.
Qed.

(** X16: in a collection whose ids are pairwise different, deleting an id that
    is present removes exactly one timer, the id is gone afterwards and the
    remaining ids are still pairwise different; so when the delete button
    is shown (more than one timer) the collection does not become empty. *)
Theorem deleteTimer_unique_ids (target : string) (prev : list Timer) :
  NoDup (map id prev) -> In target (map id prev) ->
  S (length (deleteTimer target prev)) = length prev
  /\ ~ In target (map id (deleteTimer target prev))
  /\ NoDup (map id (deleteTimer target prev))
  /\ (deleteShown prev = true -> deleteTimer target prev <> []).
Proof.
  intros Hnd Hin.
  pose proof (deleteTimer_unique_length target prev Hnd Hin) as Hlen.
  split; [exact Hlen|]. split; [|split].
  - rewrite deleteTimer_ids, filter_In. intros (_ & Hne).
    now rewrite String.eqb_refl in Hne.
  - rewrite deleteTimer_ids. now apply NoDup_filter.
  - unfold deleteShown. intros Hshown Hempty.
    apply Nat.ltb_lt in Hshown. rewrite Hempty in Hlen. cbn in Hlen. lia.
Qed.

Lemma deleteTimer_unique_ids_witness :
  S (length (deleteTimer "1" twoTimers)) = length twoTimers
  /\ ~ In "1"%string (map id (deleteTimer "1" twoTimers))
  /\ NoDup (map id (deleteTimer "1" twoTimers))
  /\ (deleteShown twoTimers = true -> deleteTimer "1" twoTimers <> []).
Proof.
  apply (deleteTimer_unique_ids "1" twoTimers).
  - cbn. repeat constructor; cbn; intuition discriminate.
  - left. reflexivity.
Defined.

(** ** The summary line *)

Lemma applyTo_Forall (P : Timer -> Prop) (target : string) (a : action)
    (prev : list Timer) :
  (forall timer, P timer -> P (fst (act a timer))) ->
  Forall P prev -> Forall P (applyTo target a prev).
Proof.
  intros Hstep Hall. unfold applyTo. apply Forall_map.
  apply (Forall_impl _ (P := P)); [|exact Hall].
  intros timer Hp. destruct (String.eqb (id timer) target); [|exact Hp].
  now apply Hstep.
Qed.

(** X17: every handler and every driver pass on the collection keeps the
    completion flags sound: if in each timer [hasCompleted] is only set on a
    stopped countdown showing 0, the same holds in the collection after
    [toggleTimer], [resetTimer], the zeroing, [toggleMode],
    [setTargetDuration], [setPreset], [deleteTimer], [updateTimers] and the
    visibility handler. *)
Theorem collection_completion_flags (prev : list Timer) :
  Forall (fun timer => completed_ok timer = true) prev ->
  let ok := Forall (fun timer => completed_ok timer = true) in
  (forall target now, ok (fst (toggleTimer target now prev)))
  /\ (forall target, ok (resetTimer target prev))
  /\ (forall target, ok (zeroTimer target prev))
  /\ (forall target, ok (toggleMode target prev))
  /\ (forall target mins, ok (setTargetDuration target mins prev))
  /\ (forall target ms, ok (setPreset target ms prev))
  /\ (forall target, ok (deleteTimer target prev))
  /\ (forall now, ok (fst (updateTimers now prev)))
  /\ (forall now state last,
         ok (fst (fst (handleVisibilityChange now state last prev)))).
Proof.
  intros Hok ok. subst ok.
  assert (Hto : forall target a,
             Forall (fun timer => completed_ok timer = true)
                    (applyTo target a prev)).
  { intros target a. apply applyTo_Forall; [|exact Hok].
    intros timer. apply act_completed_ok. }
  assert (Hmap : forall a,
             Forall (fun timer => completed_ok timer = true)
                    (map (fun t => fst (act a t)) prev)).
  { intros a. apply Forall_map.
    apply (Forall_impl _ (P := fun timer => completed_ok timer = true));
      [|exact Hok].
    intros timer. apply act_completed_ok. }
  repeat split; intros.
  - destruct (handlers_applyTo target prev) as (-> & _). apply Hto.
  - destruct (handlers_applyTo target prev) as (_ & -> & _). apply Hto.
  - destruct (handlers_applyTo target prev) as (_ & _ & -> & _). apply Hto.
  - destruct (handlers_applyTo target prev) as (_ & _ & _ & -> & _).
    apply Hto.
  - destruct (handlers_applyTo target prev) as (_ & _ & _ & _ & -> & _).
    apply Hto.
  - destruct (handlers_applyTo target prev) as (_ & _ & _ & _ & _ & ->).
    apply Hto.
  - unfold deleteTimer. apply Forall_forall. intros t Hin.
    apply filter_In in Hin. destruct Hin as (Hin & _).
    rewrite Forall_forall in Hok. now apply Hok.
  - destruct (updateTimers_per_timer now prev) as (-> & _). apply Hmap.
  - destruct state, last; try exact Hok.
    rewrite handleVisibilityChange_per_timer. cbn [fst]. apply Hmap.
Qed.

Lemma collection_completion_flags_witness :
  Forall (fun timer => completed_ok timer = true)
         (fst (updateTimers 61000 twoTimers)).
Proof.
  destruct (collection_completion_flags twoTimers)
    as (_ & _ & _ & _ & _ & _ & _ & Htick & _).
  - repeat constructor.
  - apply Htick.
Defined.

(** X18: in a collection with sound completion flags no timer is counted both
    as running and as completed: the two counts of the summary line add up
    to at most the number of timers. *)
Theorem summary_counts (timers : list Timer) :
  Forall (fun timer => completed_ok timer = true) timers ->
  (runningCount timers + completedCount timers <= length timers)%nat.
Proof.
  intros Hall. unfold runningCount, completedCount.
  induction Hall as [|t rest Ht _ IH]; [cbn; lia|].
  cbn [filter length]. unfold completed_ok in Ht.
  destruct (hasCompleted t); destruct (isRunning t); cbn [length] in *;
    try discriminate Ht; lia.
Qed.

Lemma summary_counts_witness :
  (runningCount (fst (updateTimers 61000 twoTimers))
   + completedCount (fst (updateTimers 61000 twoTimers))
   <= length (fst (updateTimers 61000 twoTimers)))%nat.
Proof.
  apply (summary_counts (fst (updateTimers 61000 twoTimers))).
  repeat constructor.
Defined.

(** ** Numbers as strings *)

Lemma parseInteger_toString (n : Z) : parseInteger (toString n) = Some n.
Proof.
  unfold parseInteger, toString.
  rewrite NilZero.isi.
  - cbn. now rewrite DecimalZ.of_to.
  - destruct n; cbn; try discriminate.
    intros [= H]. now apply (DecimalPos.Unsigned.to_uint_nonnil p).
  - destruct n; cbn; try discriminate.
    intros [= H]. now apply (DecimalPos.Unsigned.to_uint_nonnil p).
Qed.

Lemma toString_inj (n m : Z) : toString n = toString m -> n = m.
Proof.
  intros H. pose proof (parseInteger_toString n) as Hn.
  rewrite H, parseInteger_toString in Hn. now injection Hn.
Qed.






(** ** formatTime *)






(** ** addTimer *)

Lemma trimAsciiEnd_idempotent (s : string) :
  trimAsciiEnd (trimAsciiEnd s) = trimAsciiEnd s.
Proof.
  induction s as [|c s IH]; [reflexivity|].
  cbn [trimAsciiEnd]. destruct (trimAsciiEnd s) as [|k kept] eqn:Hk.
  - destruct (asciiWhiteSpace c) eqn:Hc; [reflexivity|].
    cbn [trimAsciiEnd]. now rewrite Hc.
  - cbn [trimAsciiEnd]. cbn [trimAsciiEnd] in IH. now rewrite IH.
Qed.

Lemma trimAsciiStart_head (s : string) :
  match trimAsciiStart s with
  | String c _ => asciiWhiteSpace c = false
  | EmptyString => True
  end.
Proof.
  induction s as [|c s IH]; [exact I|].
  cbn [trimAsciiStart].
  destruct (asciiWhiteSpace c) eqn:Hc; [exact IH | exact Hc].
Qed.

Lemma trimAsciiEnd_head (c : ascii) (s : string) :
  asciiWhiteSpace c = false ->
  exists kept, trimAsciiEnd (String c s) = String c kept.
Proof.
  intros Hc. cbn [trimAsciiEnd]. destruct (trimAsciiEnd s) as [|k kept].
  - rewrite Hc. now exists EmptyString.
  - now exists (String k kept).
Qed.

Lemma trimAscii_idempotent (s : string) :
  trimAscii (trimAscii s) = trimAscii s.
Proof.
  unfold trimAscii. pose proof (trimAsciiStart_head s) as Hhead.
  destruct (trimAsciiStart s) as [|c r]; [reflexivity|].
  destruct (trimAsciiEnd_head c r Hhead) as (kept & Hk).
  rewrite Hk. cbn [trimAsciiStart]. rewrite Hhead, <- Hk.
  apply trimAsciiEnd_idempotent.
Qed.

(** X21: whatever [trim] is, [addTimer] does nothing when the trimmed name
    is empty, and for such a name it also leaves the content of the input
    as it is; otherwise it clears the input and appends exactly one timer,
    leaving every existing timer at its place: the new timer carries the
    trimmed name, has the printed clock reading as id and is an idle
    stopwatch at 0 with no timestamp and no completion flag. *)
Theorem addTimer_appends_idle_stopwatch
    (trim : string -> string)
    (now : Z) (newTimerName : string) (prev : list Timer) :
  (trim newTimerName = EmptyString ->
   addTimer trim now newTimerName prev = (prev, newTimerName))
  /\ (trim newTimerName <> EmptyString ->
      exists added,
        addTimer trim now newTimerName prev = (prev ++ [added], EmptyString)
        /\ length (fst (addTimer trim now newTimerName prev))
           = S (length prev)
        /\ (forall i timer, nth_error prev i = Some timer ->
              nth_error (fst (addTimer trim now newTimerName prev)) i
              = Some timer)
        /\ nth_error (fst (addTimer trim now newTimerName prev))
                     (length prev) = Some added
        /\ name added = trim newTimerName
        /\ id added = toString now
        /\ isRunning added = false /\ mode added = stopwatch
        /\ time added = 0
        /\ (forall later, calculateCurrentTime added later = 0)
        /\ timestamps_ok added = true /\ completed_ok added = true).
Proof.
  unfold addTimer. split.
  - now intros ->.
  - intros Hne. exists (newTimer now (trim newTimerName)).
    destruct (trim newTimerName) as [|c r] eqn:Ht; [contradiction|].
    split; [reflexivity|]. cbn [fst].
    split; [rewrite length_app; cbn; lia|]. split; [|split].
    + intros i timer Hi. rewrite nth_error_app1; [exact Hi|].
      apply nth_error_Some. now rewrite Hi.
    + rewrite nth_error_app2 by lia. now rewrite Nat.sub_diag.
    + repeat split; reflexivity.
Qed.

Lemma addTimer_appends_idle_stopwatch_witness :
  addTimer trimAscii 1700000000000 "   " twoTimers
  = (twoTimers, "   "%string)
  /\ exists added,
       addTimer trimAscii 1700000000000 " Buffer B " twoTimers
       = (twoTimers ++ [added], EmptyString)
       /\ name added = "Buffer B"%string
       /\ id added = "1700000000000"%string.
Proof.
  destruct (addTimer_appends_idle_stopwatch
              trimAscii 1700000000000 "   " twoTimers) as (Hblank & _).
  destruct (addTimer_appends_idle_stopwatch
              trimAscii 1700000000000 " Buffer B " twoTimers) as (_ & Hadd).
  split; [apply Hblank; reflexivity|].
  destruct Hadd as (added & Heq & _ & _ & _ & Hname & Hid & _).
  - discriminate.
  - exists added. split; [exact Heq|]. split; [exact Hname | exact Hid].
Defined.

Lemma addTimers_ids (trim : string -> string) (clock : Z)
    (adds : list (Z * string)) (prev : list Timer) :
  increasing clock adds = true ->
  NoDup (map id prev) ->
  (forall timer, In timer prev ->
     exists r, r <= clock /\ id timer = toString r) ->
  NoDup (map id (addTimers trim adds prev)).
Proof.
  revert clock prev.
  induction adds as [|(now, typed) adds IH]; intros clock prev Hinc Hnd Hold;
    [exact Hnd|].
  cbn in Hinc. apply andb_true_iff in Hinc. destruct Hinc as (Hlt & Hinc).
  apply Z.ltb_lt in Hlt. cbn [addTimers].
  apply (IH now); [exact Hinc| |].
  - unfold addTimer. destruct (trim typed); cbn [fst]; [exact Hnd|].
    rewrite map_app. cbn [map id newTimer].
    apply NoDup_app; [exact Hnd | repeat constructor; intros [] |].
    intros i Hi [Heq | []]. subst i.
    apply in_map_iff in Hi. destruct Hi as (timer & Hid & Hin).
    destruct (Hold timer Hin) as (r & Hr & Htimer).
    rewrite Htimer in Hid. apply toString_inj in Hid. lia.
  - intros timer Hin. unfold addTimer in Hin.
    destruct (trim typed); cbn [fst] in Hin.
    + destruct (Hold timer Hin) as (r & Hr & Htimer).
      exists r. split; [lia | exact Htimer].
    + apply in_app_or in Hin. destruct Hin as [Hin | [<- | []]].
      * destruct (Hold timer Hin) as (r & Hr & Htimer).
        exists r. split; [lia | exact Htimer].
      * exists now. split; [lia | reflexivity].
Qed.

(** X22: timers added to the initial collection at strictly increasing clock
    readings above 1 all get different ids, different from the id ["1"] of
    the initial timer, whatever [trim] makes of the typed names. *)
Theorem addTimers_unique_ids
    (trim : string -> string) (adds : list (Z * string)) :
  increasing 1 adds = true ->
  NoDup (map id (addTimers trim adds [initialTimer])).
Proof.
  intros Hinc. apply (addTimers_ids trim 1 adds [initialTimer] Hinc).
  - repeat constructor. intros [].
  - intros timer [<- | []]. exists 1. split; [lia | reflexivity].
Qed.

Lemma addTimers_unique_ids_witness :
  NoDup (map id (addTimers trimAscii
                   [(1700000000000, "A"%string); (1700000000001, " "%string);
                    (1700000000002, "B"%string)] [initialTimer])).
Proof.
  apply (addTimers_unique_ids trimAscii
           [(1700000000000, "A"%string); (1700000000001, " "%string);
            (1700000000002, "B"%string)]).
  reflexivity.
Defined.

(** ** The calculation history *)

(** X23: [addEntry] puts the new entry first, keeps the 19 most recent of the
    previous entries in their order, and so never holds more than
    [MAX_HISTORY_ITEMS = 20] entries; below the bound nothing is lost. *)
Theorem addEntry_keeps_most_recent
    (Inputs : Type) (now : Z) (type0 : History.EntryType) (inputs0 : Inputs)
    (result0 : string) (prev : list (History.HistoryEntry Inputs)) :
  let newEntry := History.mkHistoryEntry (toString now) type0 now
                                         inputs0 result0 in
  History.addEntry now type0 inputs0 result0 prev
  = newEntry :: firstn 19 prev
  /\ length (History.addEntry now type0 inputs0 result0 prev)
     = Nat.min 20 (S (length prev))
  /\ ((length prev < 20)%nat ->
      History.addEntry now type0 inputs0 result0 prev = newEntry :: prev)
  /\ ((20 <= length prev)%nat ->
      forall i, (19 <= i)%nat ->
        nth_error (History.addEntry now type0 inputs0 result0 prev) (S i)
        = None).
Proof.
  intros newEntry. unfold History.addEntry, History.MAX_HISTORY_ITEMS.
  fold newEntry.
  change (firstn 20 (newEntry :: prev)) with (newEntry :: firstn 19 prev).
  split; [reflexivity|]. split; [|split].
  - cbn [length]. rewrite length_firstn. lia.
  - intros Hlt. rewrite firstn_all2 by lia. reflexivity.
  - intros _ i Hi. cbn [nth_error].
    apply nth_error_None. rewrite length_firstn. lia.
Qed.

Lemma addEntry_keeps_most_recent_witness :
  History.addEntry 1700000000005 History.dilution [] "10 mL"
                   [History.sampleEntry]
  = [History.mkHistoryEntry "1700000000005" History.dilution 1700000000005
                            [] "10 mL";
     History.sampleEntry].
Proof.
  apply (addEntry_keeps_most_recent _ 1700000000005 History.dilution []
           "10 mL" [History.sampleEntry]).
  cbn. lia.
Defined.

Lemma saveEffect_history (Inputs : Type) (st : History.HookState Inputs) :
  History.history (History.saveEffect st) = History.history st.
Proof.
  unfold History.saveEffect.
  destruct (History.isHydrated st && _); reflexivity.
Qed.

Lemma mount_history (Inputs : Type)
    (stored : option (list (History.HistoryEntry Inputs))) :
  History.history (History.mount stored)
  = History.loadHistoryFromStorage stored.
Proof. unfold History.mount. now rewrite saveEffect_history. Qed.

Lemma saveEffect_nonempty (Inputs : Type) (st : History.HookState Inputs) :
  History.isHydrated st = true -> History.history st <> [] ->
  History.storage (History.saveEffect st) = Some (History.history st).
Proof.
  intros Hh Hne. unfold History.saveEffect. rewrite Hh.
  destruct (History.history st); [contradiction | reflexivity].
Qed.

Lemma saveEffect_empty (Inputs : Type) (st : History.HookState Inputs) :
  History.history st = [] ->
  History.storage (History.saveEffect st) = History.storage st.
Proof.
  intros He. unfold History.saveEffect. rewrite He.
  now rewrite andb_false_r.
Qed.

(** X24: what a reload finds, for a hydrated hook whose storage holds its
    history: after [addEntry] the stored history is the current one; after
    [deleteEntry] it is the current one as long as an entry is left, but
    when the last entries are deleted nothing is written and the storage
    still holds the history from before the deletion; after [clearHistory]
    the key is removed and a reload starts empty. *)
Theorem history_persistence (Inputs : Type) (st : History.HookState Inputs) :
  History.isHydrated st = true ->
  History.storage st = Some (History.history st) ->
  (forall now type0 inputs0 result0,
      let st' := History.addEntry_hook now type0 inputs0 result0 st in
      History.history (History.mount (History.storage st'))
      = History.history st')
  /\ (forall target,
         let st' := History.deleteEntry_hook target st in
         (History.history st' <> [] ->
          History.history (History.mount (History.storage st'))
          = History.history st')
         /\ (History.history st' = [] ->
             History.history (History.mount (History.storage st'))
             = History.history st))
  /\ History.history
       (History.mount (History.storage (History.clearHistory_hook st)))
     = [].
Proof.
  intros Hh Hsync. split; [|split].
  - intros now type0 inputs0 result0 st'. subst st'.
    rewrite mount_history. unfold History.addEntry_hook.
    rewrite saveEffect_history, saveEffect_nonempty; try exact Hh.
    + reflexivity.
    + cbn. unfold History.addEntry, History.MAX_HISTORY_ITEMS. cbn.
      discriminate.
  - intros target st'. subst st'. unfold History.deleteEntry_hook.
    rewrite !mount_history, !saveEffect_history. cbn [History.history].
    split; intros Hrest.
    + rewrite saveEffect_nonempty; [reflexivity | exact Hh | exact Hrest].
    + rewrite saveEffect_empty by exact Hrest.
      cbn [History.storage]. now rewrite Hsync.
  - rewrite mount_history. unfold History.clearHistory_hook.
    rewrite saveEffect_empty by reflexivity. reflexivity.
Qed.

Lemma history_persistence_witness :
  let st := History.mkHookState [History.sampleEntry] true
                                (Some [History.sampleEntry]) in
  let st' := History.deleteEntry_hook "1700000000000" st in
  History.history st' = []
  /\ History.history (History.mount (History.storage st'))
     = [History.sampleEntry].
Proof.
  intros st st'.
  destruct (history_persistence _ st eq_refl eq_refl) as (_ & Hdel & _).
  destruct (Hdel "1700000000000"%string) as (_ & Hstale).
  split; [reflexivity|]. apply Hstale. reflexivity.
Defined.
